(** * NutriBot: the questionnaire state machine and its nutrition arithmetic

    A shallow embedding of [nutri_bot.py].  The file has two parts: the
    definitions (Python's numbers and the builtins the bot calls, the three
    calculation functions, the aiogram handlers with the dispatcher that
    selects them, and the delivery of a generated menu), and then the
    properties proved about them.

    Conventions.
    - A Python [float] is an IEEE-754 binary64 value: [spec_float] of the
      Standard Library at precision 53 and maximal exponent 1024, with its
      correctly rounded operations.
    - A Python [int] is a [Z].
    - A Python [str] received from the chat is a [string] holding its UTF-8
      encoding, so that equality with the labels of the source is equality of
      strings.  Where the source counts and slices characters (the delivery
      of the menu) a text is the list of its code points.
    - A Python exception is a value of [exn]; a computation that may raise
      one returns a [result]. *)

From Stdlib Require Import ZArith Lia Bool Ascii String.
From Stdlib Require Import Floats.SpecFloat.
From stdpp Require Import base option list strings gmap.

Local Open Scope Z_scope.

(** ** Exceptions *)

Inductive exn : Set :=
| ValueError
| OverflowError
| ZeroDivisionError
| KeyError
| TypeError.

#[global] Instance exn_eq_dec : EqDecision exn.
Proof. solve_decision. Defined.

Inductive result (A : Type) : Type :=
| Ok (a : A)
| Raise (e : exn).
Arguments Ok {A} a.
Arguments Raise {A} e.

#[global] Instance result_ret : MRet result := fun _ a => Ok a.
#[global] Instance result_bind : MBind result := fun _ _ k r =>
  match r with
  | Ok a => k a
  | Raise e => Raise e
  end.

(** ** Binary64 *)

Module Float.

Definition prec : Z := 53.
Definition emax : Z := 1024.

Definition float : Set := spec_float.

Definition nan : float := S754_nan.
Definition inf (neg : bool) : float := S754_infinity neg.

Definition add : float -> float -> float := SFadd prec emax.
Definition sub : float -> float -> float := SFsub prec emax.
Definition mul : float -> float -> float := SFmul prec emax.
Definition div : float -> float -> float := SFdiv prec emax.

Definition is_zero (f : float) : bool :=
  match f with S754_zero _ => true | _ => false end.

Definition is_nan (f : float) : bool :=
  match f with S754_nan => true | _ => false end.

(** The double nearest to the integer [z] (ties to even); an infinity
    when [z] is beyond the largest double. *)
Definition of_Z (z : Z) : float := binary_normalize prec emax z 0 false.

(** A mantissa of any size, not yet rounded. *)
Definition unrounded (neg : bool) (m : N) : float :=
  match m with
  | N0 => S754_zero neg
  | Npos p => S754_finite neg p 0
  end.

(** The double nearest to [(-1)^neg * m * 10^e10]: what Python's parser
    makes of a decimal literal and [float()] of a decimal string.  The
    division is rounded once, from the exact quotient. *)
Definition of_decimal (neg : bool) (m : N) (e10 : Z) : float :=
  match m with
  | N0 => S754_zero neg
  | Npos _ =>
      if 0 <=? e10
      then binary_normalize prec emax
             ((if neg then Z.opp else id) (Z.of_N m * 10 ^ e10)) 0 false
      else div (unrounded neg m) (unrounded false (Z.to_N (10 ^ (- e10))))
  end.

(** Exact comparison of a float with an integer; [None] when the float
    is a NaN (every ordered comparison is then false). *)
Definition compare_Z (f : float) (z : Z) : option comparison :=
  match f with
  | S754_nan => None
  | S754_infinity neg => Some (if neg then Lt else Gt)
  | S754_zero _ => Some (0 ?= z)
  | S754_finite neg m e =>
      let v := if neg then Z.neg m else Z.pos m in
      Some (if 0 <=? e then (v * 2 ^ e ?= z) else (v ?= z * 2 ^ (- e)))
  end.

(** The magnitude [m * 2^e] rounded to the nearest integer, a tie going
    to the even neighbour. *)
Definition nearest_even (m : positive) (e : Z) : Z :=
  if 0 <=? e then Z.pos m * 2 ^ e
  else
    let d := 2 ^ (- e) in
    let q := Z.pos m / d in
    let r := Z.pos m mod d in
    match 2 * r ?= d with
    | Lt => q
    | Gt => q + 1
    | Eq => if Z.even q then q else q + 1
    end.

End Float.

Abbreviation float := Float.float.

(** ** Python numbers and builtins *)

Declare Scope py_scope.
Delimit Scope py_scope with py.

Module Py.

Inductive number : Set :=
| Int (z : Z)
| Flt (f : float).

(** [int -> float], as the mixed arithmetic converts: correctly rounded,
    [OverflowError] when the integer is too large for a double. *)
Definition int_to_float (z : Z) : result float :=
  match Float.of_Z z with
  | S754_infinity _ => Raise OverflowError
  | f => Ok f
  end.

Definition to_float (n : number) : result float :=
  match n with
  | Int z => int_to_float z
  | Flt f => Ok f
  end.

(** A binary operator: on two ints the exact integer operation, otherwise
    both operands as floats and the binary64 operation. *)
Definition arith (iop : Z -> Z -> Z) (fop : float -> float -> float)
    (a b : number) : result number :=
  match a, b with
  | Int x, Int y => Ok (Int (iop x y))
  | _, _ => x ← to_float a; y ← to_float b; Ok (Flt (fop x y))
  end.

Definition number_is_zero (n : number) : bool :=
  match n with
  | Int z => z =? 0
  | Flt f => Float.is_zero f
  end.

(** True division [a / b]: always a float. *)
Definition truediv (a b : number) : result number :=
  if number_is_zero b then Raise ZeroDivisionError
  else
    match a, b with
    | Int x, Int y =>
        match Float.div (Float.unrounded (x <? 0) (Z.abs_N x))
                        (Float.unrounded (y <? 0) (Z.abs_N y)) with
        | S754_infinity _ => Raise OverflowError
        | f => Ok (Flt f)
        end
    | _, _ => x ← to_float a; y ← to_float b; Ok (Flt (Float.div x y))
    end.

(** The operators on computations, so that an expression of the source
    reads the same here; the first exception raised is the result. *)
Definition lift2 (op : number -> number -> result number)
    (a b : result number) : result number :=
  x ← a; y ← b; op x y.

Definition add := lift2 (arith Z.add Float.add).
Definition sub := lift2 (arith Z.sub Float.sub).
Definition mul := lift2 (arith Z.mul Float.mul).
Definition div := lift2 truediv.

(** A decimal literal of the source: [dec 625 (-2)] is [6.25]. *)
Definition dec (m : Z) (e10 : Z) : number :=
  Flt (Float.of_decimal (m <? 0) (Z.abs_N m) e10).

(** Ordered comparison; exact also between an int and a float, and
    [None] as soon as a NaN takes part. *)
Definition compare (a b : number) : option comparison :=
  match a, b with
  | Int x, Int y => Some (x ?= y)
  | Flt f, Int y => Float.compare_Z f y
  | Int x, Flt g => CompOpp <$> Float.compare_Z g x
  | Flt f, Flt g => SFcompare f g
  end.

Definition lt (a b : number) : bool :=
  match compare a b with Some Lt => true | _ => false end.
Definition gt (a b : number) : bool :=
  match compare a b with Some Gt => true | _ => false end.

(** [round(x)] with one argument: an int is returned as it is, a float is
    rounded half to even; a NaN raises [ValueError], an infinity
    [OverflowError]. *)
Definition round (x : number) : result Z :=
  match x with
  | Int z => Ok z
  | Flt S754_nan => Raise ValueError
  | Flt (S754_infinity _) => Raise OverflowError
  | Flt (S754_zero _) => Ok 0
  | Flt (S754_finite neg m e) =>
      Ok ((if neg then Z.opp else id) (Float.nearest_even m e))
  end.

(** *** Strings to numbers

    [int(s)] and [float(s)] on the ASCII characters: blanks are stripped on
    both sides, a sign may lead, digits may be grouped by single
    underscores.  CPython also takes the decimal digits and blanks of other
    scripts; a text with such a character is unparsable here.  The limit
    of recent CPython versions on the digits of an [int] (4300) is left
    out: a Telegram message holds 4096 characters. *)

Definition isspace (c : ascii) : bool :=
  let n := nat_of_ascii c in
  ((9 <=? n)%nat && (n <=? 13)%nat) || (n =? 32)%nat.

Definition isdigit (c : ascii) : bool :=
  let n := nat_of_ascii c in (48 <=? n)%nat && (n <=? 57)%nat.

Definition digit_value (c : ascii) : Z := Z.of_nat (nat_of_ascii c) - 48.

Fixpoint lstrip (l : list ascii) : list ascii :=
  match l with
  | c :: l' => if isspace c then lstrip l' else l
  | [] => []
  end.

Definition strip (l : list ascii) : list ascii :=
  reverse (lstrip (reverse (lstrip l))).

(** An optional sign: whether it is a minus, and the rest. *)
Definition sign (l : list ascii) : bool * list ascii :=
  match l with
  | "-"%char :: l' => (true, l')
  | "+"%char :: l' => (false, l')
  | _ => (false, l)
  end.

(** Underscores: allowed only between two digits.  [None] when one is
    misplaced, else the characters without them. *)
Fixpoint ungroup (prev : option ascii) (l : list ascii) : option (list ascii) :=
  match l with
  | [] => if bool_decide (prev = Some "_"%char) then None else Some []
  | c :: l' =>
      if bool_decide (c = "_"%char)
      then if from_option isdigit false prev then ungroup (Some c) l' else None
      else if bool_decide (prev = Some "_"%char) && negb (isdigit c) then None
           else cons c <$> ungroup (Some c) l'
  end.

(** The value of a run of digits, most significant first. *)
Definition digits_value (l : list ascii) : Z :=
  foldl (fun acc c => 10 * acc + digit_value c) 0 l.

(** The longest prefix of digits, and the rest. *)
Fixpoint span_digits (l : list ascii) : list ascii * list ascii :=
  match l with
  | c :: l' =>
      if isdigit c
      then let '(ds, rest) := span_digits l' in (c :: ds, rest)
      else ([], l)
  | [] => ([], [])
  end.

Definition all_digits (l : list ascii) : bool :=
  negb (bool_decide (l = [])) && forallb isdigit l.

(** [int(s)], base ten. *)
Definition int (s : string) : result Z :=
  match ungroup None (strip (list_ascii_of_string s)) with
  | None => Raise ValueError
  | Some l =>
      let '(neg, ds) := sign l in
      if all_digits ds
      then Ok ((if neg then Z.opp else id) (digits_value ds))
      else Raise ValueError
  end.

Definition lower (c : ascii) : ascii :=
  let n := nat_of_ascii c in
  if (65 <=? n)%nat && (n <=? 90)%nat then ascii_of_nat (n + 32) else c.

(** The decimal exponent that may end a float: nothing, or [e] or [E], an
    optional sign and at least one digit. *)
Definition exponent (l : list ascii) : option Z :=
  match l with
  | [] => Some 0
  | c :: l' =>
      if bool_decide (lower c = "e"%char)
      then let '(neg, ds) := sign l' in
           if all_digits ds
           then Some ((if neg then Z.opp else id) (digits_value ds))
           else None
      else None
  end.

(** Digits, an optional point and digits (one digit at least), an
    optional exponent. *)
Definition decimal (neg : bool) (l : list ascii) : option float :=
  let '(ip, l1) := span_digits l in
  let '(fp, l2) :=
    match l1 with
    | "."%char :: l1' => span_digits l1'
    | _ => ([], l1)
    end in
  if bool_decide (ip = []) && bool_decide (fp = []) then None
  else
    e ← exponent l2;
    Some (Float.of_decimal neg (Z.to_N (digits_value (ip ++ fp)))
            (e - Z.of_nat (length fp))).

(** [inf], [infinity] and [nan], in any case. *)
Definition inf_or_nan (neg : bool) (l : list ascii) : option float :=
  let w := string_of_list_ascii (map lower l) in
  if bool_decide (w = "inf"%string) || bool_decide (w = "infinity"%string)
  then Some (Float.inf neg)
  else if bool_decide (w = "nan"%string) then Some Float.nan
  else None.

(** [float(s)]. *)
Definition float (s : string) : result Float.float :=
  match ungroup None (strip (list_ascii_of_string s)) with
  | None => Raise ValueError
  | Some l =>
      let '(neg, body) := sign l in
      match decimal neg body with
      | Some f => Ok f
      | None =>
          match inf_or_nan neg body with
          | Some f => Ok f
          | None => Raise ValueError
          end
      end
  end.

(** [s.replace(old, new)] for single characters. *)
Definition replace (old new : ascii) (s : string) : string :=
  string_of_list_ascii
    (map (fun c => if bool_decide (c = old) then new else c) (list_ascii_of_string s)).

End Py.

Infix "+" := Py.add : py_scope.
Infix "-" := Py.sub : py_scope.
Infix "*" := Py.mul : py_scope.
Infix "/" := Py.div : py_scope.

Local Open Scope string_scope.
Local Open Scope list_scope.

(** ** The calculation functions *)

Definition ACTIVITY_COEFFICIENTS : gmap string Py.number :=
  list_to_map
    [ ("Минимальная", Py.dec 12 (-1));
      ("Низкая", Py.dec 1375 (-3));
      ("Средняя", Py.dec 155 (-2));
      ("Высокая", Py.dec 1725 (-3));
      ("Очень высокая", Py.dec 19 (-1)) ].

Definition GOAL_COEFFICIENTS : gmap string Py.number :=
  list_to_map
    [ ("Похудеть", Py.dec (-2) (-1));
      ("Поддерживать форму", Py.Int 0);
      ("Набрать массу", Py.dec 2 (-1)) ].

(** [d.get(key, default)]. *)
Definition get {V} (d : gmap string V) (key : string) (dflt : V) : V :=
  default dflt (d !! key).

Coercion int_literal (z : Z) : result Py.number := Ok (Py.Int z).

Definition calculate_bmr (gender : string) (weight height age : Py.number)
    : result Py.number :=
  if bool_decide (gender = "Мужской")
  then (10 * Ok weight + Ok (Py.dec 625 (-2)) * Ok height - 5 * Ok age + 5)%py
  else (10 * Ok weight + Ok (Py.dec 625 (-2)) * Ok height - 5 * Ok age - 161)%py.

Definition calculate_daily_calories (bmr : Py.number) (activity goal : string)
    : result Z :=
  let activity_coef := get ACTIVITY_COEFFICIENTS activity (Py.dec 12 (-1)) in
  let goal_coef := get GOAL_COEFFICIENTS goal (Py.Int 0) in
  tdee ← (Ok bmr * Ok activity_coef)%py;
  adjusted_calories ← (Ok tdee * (1 + Ok goal_coef))%py;
  Py.round adjusted_calories.

Record macros : Set := { protein : Z; fat : Z; carbs : Z }.

Definition calculate_macros (calories : Py.number) : result macros :=
  protein_calories ← (Ok calories * Ok (Py.dec 30 (-2)))%py;
  fat_calories ← (Ok calories * Ok (Py.dec 25 (-2)))%py;
  carb_calories ← (Ok calories * Ok (Py.dec 45 (-2)))%py;
  p ← (Ok protein_calories / 4)%py ≫= Py.round;
  f ← (Ok fat_calories / 9)%py ≫= Py.round;
  c ← (Ok carb_calories / 4)%py ≫= Py.round;
  Ok {| protein := p; fat := f; carbs := c |}.

(** ** The finite-state machine

    aiogram keeps, for each chat, a state (none before the first command
    and after a cancel) and a dictionary of data; [FSMContext] is the
    handle on both that every handler receives. *)

Module UserStates.
Inductive t : Set := gender | age | weight | height | activity | goal | menu.
#[global] Instance eq_dec : EqDecision t.
Proof. solve_decision. Defined.
End UserStates.

(** What the handlers store under a key of the data. *)
Inductive value : Set :=
| VStr (s : string)
| VNum (n : Py.number)
| VMacros (m : macros).

Record FSMContext : Type := {
  state : option UserStates.t;
  data : gmap string value
}.

(** A text message as the filters and handlers see it: its text, and the
    command aiogram's [Command] filter reads in it, if it is one ([/start]
    gives [Some "start"]). *)
Record Message : Set := {
  text : string;
  command : option string
}.

(** A text of the language model: its code points. *)
Abbreviation chars := (list N).

(** What [message.answer] is called with: one constructor for each
    message of the source, with the values its f-string interpolates. *)
Inductive answer : Set :=
| Welcome
| Farewell
| AskAge (user_gender : string)
| BadAge
| EnterNumber
| AskWeight (user_age : Z)
| BadWeight
| AskHeight (user_weight : float)
| BadHeight
| AskActivity (user_height : float)
| ChooseOption
| AskGoal (user_activity : string)
| Results (gender age weight height activity goal : value)
    (bmr : Z) (daily_calories : Z) (m : macros)
| MyData (gender age weight height activity goal : value)
    (bmr : Z) (daily_calories protein fat carbs : value)
| StartOver
| Generating
| Plain (body : chars)
| AuthenticationFailed
| RateLimited
| ApiFailed (reason : chars)
| GenerationFailed.

(** A handler runs on the context, may change it, sends answers, and
    ends with a value or with an exception.  What it did before an exception
    stays done. *)
Definition handler (A : Type) : Type :=
  FSMContext -> result A * FSMContext * list answer.

#[global] Instance handler_ret : MRet handler := fun _ a s => (Ok a, s, []).
#[global] Instance handler_bind : MBind handler := fun _ _ k h s =>
  match h s with
  | (Ok a, s1, out1) => let '(r, s2, out2) := k a s1 in (r, s2, out1 ++ out2)
  | (Raise e, s1, out1) => (Raise e, s1, out1)
  end.

Definition lift {A} (r : result A) : handler A := fun s => (r, s, []).

(** [try: body except e: on_error]. *)
Definition try_except (e : exn) (body on_error : handler unit) : handler unit :=
  fun s =>
  match body s with
  | (Raise e', s1, out1) =>
      if bool_decide (e' = e)
      then let '(r, s2, out2) := on_error s1 in (r, s2, out1 ++ out2)
      else (Raise e', s1, out1)
  | done => done
  end.

Definition message_answer (a : answer) : handler unit := fun s => (Ok tt, s, [a]).

Definition set_state (st : UserStates.t) : handler unit :=
  fun s => (Ok tt, {| state := Some st; data := data s |}, []).

Definition update_data (key : string) (v : value) : handler unit :=
  fun s => (Ok tt, {| state := state s; data := <[key := v]> (data s) |}, []).

Definition get_data : handler (gmap string value) := fun s => (Ok (data s), s, []).

(** [state.clear()]: no state, no data. *)
Definition clear : handler unit :=
  fun s => (Ok tt, {| state := None; data := ∅ |}, []).

(** [data[key]], read as the type the handlers store under that key; a
    value of another type ends in [TypeError]. *)
Definition item (d : gmap string value) (key : string) : result value :=
  match d !! key with
  | Some v => Ok v
  | None => Raise KeyError
  end.

Definition as_str (v : value) : result string :=
  match v with VStr s => Ok s | _ => Raise TypeError end.

Definition as_num (v : value) : result Py.number :=
  match v with VNum n => Ok n | _ => Raise TypeError end.

(** *** The handlers *)

Definition cmd_start (message : Message) : handler unit :=
  message_answer Welcome;;
  set_state UserStates.gender.

Definition cmd_cancel (message : Message) : handler unit :=
  clear;;
  message_answer Farewell.

Definition process_gender (message : Message) : handler unit :=
  let user_gender := text message in
  update_data "gender" (VStr user_gender);;
  message_answer (AskAge user_gender);;
  set_state UserStates.age.

Definition process_age (message : Message) : handler unit :=
  try_except ValueError
    (user_age ← lift (Py.int (text message));
     if ((user_age <? 10) || (user_age >? 120))%Z
     then message_answer BadAge
     else
       update_data "age" (VNum (Py.Int user_age));;
       message_answer (AskWeight user_age);;
       set_state UserStates.weight)
    (message_answer EnterNumber).

Definition process_weight (message : Message) : handler unit :=
  try_except ValueError
    (user_weight ← lift (Py.float (Py.replace "," "." (text message)));
     if Py.lt (Py.Flt user_weight) (Py.Int 30)
        || Py.gt (Py.Flt user_weight) (Py.Int 300)
     then message_answer BadWeight
     else
       update_data "weight" (VNum (Py.Flt user_weight));;
       message_answer (AskHeight user_weight);;
       set_state UserStates.height)
    (message_answer EnterNumber).

Definition process_height (message : Message) : handler unit :=
  try_except ValueError
    (user_height ← lift (Py.float (Py.replace "," "." (text message)));
     if Py.lt (Py.Flt user_height) (Py.Int 100)
        || Py.gt (Py.Flt user_height) (Py.Int 250)
     then message_answer BadHeight
     else
       update_data "height" (VNum (Py.Flt user_height));;
       message_answer (AskActivity user_height);;
       set_state UserStates.activity)
    (message_answer EnterNumber).

Definition process_activity (message : Message) : handler unit :=
  let user_activity := text message in
  if bool_decide (ACTIVITY_COEFFICIENTS !! user_activity = None)
  then message_answer ChooseOption
  else
    update_data "activity" (VStr user_activity);;
    message_answer (AskGoal user_activity);;
    set_state UserStates.goal.

Definition process_goal (message : Message) : handler unit :=
  let user_goal := text message in
  if bool_decide (GOAL_COEFFICIENTS !! user_goal = None)
  then message_answer ChooseOption
  else
    update_data "goal" (VStr user_goal);;
    d ← get_data;
    bmr ← lift (g ← item d "gender" ≫= as_str;
                w ← item d "weight" ≫= as_num;
                h ← item d "height" ≫= as_num;
                a ← item d "age" ≫= as_num;
                calculate_bmr g w h a);
    daily_calories ← lift (a ← item d "activity" ≫= as_str;
                           g ← item d "goal" ≫= as_str;
                           calculate_daily_calories bmr a g);
    m ← lift (calculate_macros (Py.Int daily_calories));
    update_data "bmr" (VNum bmr);;
    update_data "daily_calories" (VNum (Py.Int daily_calories));;
    update_data "macros" (VMacros m);;
    result_message ← lift (gender ← item d "gender";
                           age ← item d "age";
                           weight ← item d "weight";
                           height ← item d "height";
                           activity ← item d "activity";
                           goal ← item d "goal";
                           rounded ← Py.round bmr;
                           Ok (Results gender age weight height activity goal
                                 rounded daily_calories m));
    message_answer result_message;;
    set_state UserStates.menu.

(** [data.get('macros', {}).get(key, 0)]. *)
Definition macro_or_zero (d : gmap string value) (field : macros -> Z)
    : result value :=
  match d !! "macros" with
  | None => Ok (VNum (Py.Int 0))
  | Some (VMacros m) => Ok (VNum (Py.Int (field m)))
  | Some _ => Raise TypeError
  end.

Definition show_my_data (message : Message) : handler unit :=
  d ← get_data;
  message_text ← lift (bmr ← as_num (get d "bmr" (VNum (Py.Int 0))) ≫= Py.round;
                       p ← macro_or_zero d protein;
                       f ← macro_or_zero d fat;
                       c ← macro_or_zero d carbs;
                       Ok (MyData (get d "gender" (VStr "Не указан"))
                             (get d "age" (VStr "Не указан"))
                             (get d "weight" (VStr "Не указан"))
                             (get d "height" (VStr "Не указан"))
                             (get d "activity" (VStr "Не указана"))
                             (get d "goal" (VStr "Не указана"))
                             bmr
                             (get d "daily_calories" (VNum (Py.Int 0)))
                             p f c));
  message_answer message_text.

Definition recalculate (message : Message) : handler unit :=
  message_answer StartOver;;
  set_state UserStates.gender.

(** *** Delivering the generated menu *)

(** The code points of a UTF-8 literal of the source. *)
Fixpoint decode (bytes : list N) : chars :=
  let cont (b : N) : N := (b - 128)%N in
  match bytes with
  | [] => []
  | b :: rest =>
      if (b <? 128)%N then b :: decode rest
      else if (b <? 224)%N then
        match rest with
        | b1 :: rest1 => ((b - 192) * 64 + cont b1)%N :: decode rest1
        | _ => []
        end
      else if (b <? 240)%N then
        match rest with
        | b1 :: b2 :: rest2 =>
            ((b - 224) * 4096 + cont b1 * 64 + cont b2)%N :: decode rest2
        | _ => []
        end
      else
        match rest with
        | b1 :: b2 :: b3 :: rest3 =>
            ((b - 240) * 262144 + cont b1 * 4096 + cont b2 * 64 + cont b3)%N
              :: decode rest3
        | _ => []
        end
  end.

Definition u (s : string) : chars :=
  decode (map N_of_ascii (list_ascii_of_string s)).

(** [str(n)] of a natural number: its decimal digits. *)
Fixpoint digits (fuel : nat) (n : N) (acc : chars) : chars :=
  let acc' := (48 + n mod 10)%N :: acc in
  match fuel with
  | O => acc'
  | S fuel' => if (n <? 10)%N then acc' else digits fuel' (n / 10)%N acc'
  end.

Definition str (n : nat) : chars := digits n (N.of_nat n) [].

(** [range(0, stop, step)]. *)
Definition range (stop step : nat) : list nat :=
  (fun k => k * step)%nat <$> seq 0 (Nat.div (stop + step - 1) step).

(** [s[i:j]] for [0 <= i <= j]. *)
Definition slice {A} (s : list A) (i j : nat) : list A :=
  take (j - i) (drop i s).

(** The messages the success branch of [generate_menu] sends for the text
    [menu_text] of the language model. *)
Definition send_menu (menu_text : chars) : list chars :=
  if (4096 <? length menu_text)%nat
  then
    let parts :=
      (fun i => slice menu_text i (i + 4000)) <$> range (length menu_text) 4000 in
    imap (fun k part =>
            u "📋 Ваше меню (часть " ++ str (k + 1) ++ u "/" ++ str (length parts)
              ++ u "):" ++ [10; 10]%N ++ part)
         parts
  else
    [u "📋 Ваше персонализированное меню на неделю:" ++ [10; 10]%N ++ menu_text].

(** How the call to the language model ends. *)
Inductive api_error : Set :=
| AuthenticationError
| RateLimitError
| APIError (str_e : chars)
| OtherError.

Definition completion : Set := api_error + chars.

(** [generate_menu]: [response] is how the call to the language model
    ends for the prompt built from the data; the handler only reads the
    data.  What Telegram does with a message it is sent is not part of the
    model. *)
Definition generate_menu (response : completion) (message : Message)
    : handler unit :=
  d ← get_data;
  message_answer Generating;;
  match response with
  | inr menu_text => fun s => (Ok tt, s, Plain <$> send_menu menu_text)
  | inl AuthenticationError => message_answer AuthenticationFailed
  | inl RateLimitError => message_answer RateLimited
  | inl (APIError str_e) => message_answer (ApiFailed str_e)
  | inl OtherError => message_answer GenerationFailed
  end.

(** *** The dispatcher

    The handlers are tried in the order the source registers them; the
    first whose filters accept the message runs, and a message none
    accepts is dropped.  An exception that leaves a handler is logged by the
    dispatcher: the chat keeps what the handler did before it. *)

Definition find_handler (response : completion) (message : Message)
    (st : option UserStates.t) : option (handler unit) :=
  if bool_decide (command message = Some "start") then Some (cmd_start message)
  else if bool_decide (command message = Some "cancel") then Some (cmd_cancel message)
  else
    match st with
    | Some UserStates.gender => Some (process_gender message)
    | Some UserStates.age => Some (process_age message)
    | Some UserStates.weight => Some (process_weight message)
    | Some UserStates.height => Some (process_height message)
    | Some UserStates.activity => Some (process_activity message)
    | Some UserStates.goal => Some (process_goal message)
    | Some UserStates.menu =>
        if bool_decide (text message = "📋 Мои данные")
        then Some (show_my_data message)
        else if bool_decide (text message = "🔄 Пересчитать")
        then Some (recalculate message)
        else if bool_decide (text message ∈ ["🍽 Сгенерировать меню"; "🆕 Новое меню"])
        then Some (generate_menu response message)
        else None
    | None => None
    end.

Definition dispatch (response : completion) (message : Message)
    (s : FSMContext) : FSMContext * list answer :=
  match find_handler response message (state s) with
  | Some h => let '(_, s', out) := h s in (s', out)
  | None => (s, [])
  end.

Definition fresh : FSMContext := {| state := None; data := ∅ |}.

Definition in_state (st : UserStates.t) (d : gmap string value) : FSMContext :=
  {| state := Some st; data := d |}.

Definition msg (t : string) : Message := {| text := t; command := None |}.
Definition cmd (name : string) : Message :=
  {| text := "/" ++ name; command := Some name |}.

(** The chat after a sequence of messages, each with the way the call to
    the language model would end if the message asked for a menu. *)
Definition run (events : list (completion * Message)) (s : FSMContext)
    : FSMContext :=
  foldl (fun s ev => (dispatch ev.1 ev.2 s).1) s events.

(** A user answers [t]; a complete first pass through the questionnaire;
    the restart button of the menu. *)
Definition said (t : string) : completion * Message := (inr [], msg t).

Definition first_pass : list (completion * Message) :=
  [ (inr [], cmd "start"); said "Мужской"; said "30"; said "70"; said "175";
    said "Средняя"; said "Поддерживать форму" ].

Definition restart : completion * Message := said "🔄 Пересчитать".

Inductive reachable : FSMContext -> Prop :=
| reachable_fresh : reachable fresh
| reachable_step response message s :
    reachable s -> reachable (dispatch response message s).1.

(** ** The vocabulary of the specification *)

(** The Profile, in the order the questionnaire asks for it. *)
Definition fields : list string :=
  ["gender"; "age"; "weight"; "height"; "activity"; "goal"].

(** The DerivedTargets. *)
Definition derived : list string := ["bmr"; "daily_calories"; "macros"].

Definition position (st : option UserStates.t) : nat :=
  match st with
  | None | Some UserStates.gender => 0
  | Some UserStates.age => 1
  | Some UserStates.weight => 2
  | Some UserStates.height => 3
  | Some UserStates.activity => 4
  | Some UserStates.goal => 5
  | Some UserStates.menu => 6
  end.

(** The fields collected strictly before a state. *)
Definition collected_before (st : option UserStates.t) : list string :=
  take (position st) fields.

Definition populated (s : FSMContext) (key : string) : Prop :=
  is_Some (data s !! key).

(** The invariant as the specification words it: the populated fields
    are exactly those collected before the current state. *)
Definition state_matches_fields (s : FSMContext) : Prop :=
  forall key, key ∈ fields -> populated s key <-> key ∈ collected_before (state s).

(** What does hold of every chat: the populated fields are the first [n]
    of the questionnaire, for an [n] that covers at least the fields
    collected before the current state, and a chat without a state has no
    data. *)
Definition questionnaire_invariant (s : FSMContext) : Prop :=
  (state s = None -> data s = ∅)
  /\ exists n : nat,
      (position (state s) <= n)%nat
      /\ forall (i : nat) (key : string),
          fields !! i = Some key -> populated s key <-> (i < n)%nat.

(** The keys the handler of a state may write. *)
Definition written (st : UserStates.t) : list string :=
  match st with
  | UserStates.gender => ["gender"]
  | UserStates.age => ["age"]
  | UserStates.weight => ["weight"]
  | UserStates.height => ["height"]
  | UserStates.activity => ["activity"]
  | UserStates.goal => ["goal"; "bmr"; "daily_calories"; "macros"]
  | UserStates.menu => []
  end.

(** The multiplier of an activity label and the adjustment of a goal
    label, with the defaults for any other text. *)
Definition activityMultiplier (label : string) : Py.number :=
  if bool_decide (label = "Минимальная") then Py.dec 120 (-2)
  else if bool_decide (label = "Низкая") then Py.dec 1375 (-3)
  else if bool_decide (label = "Средняя") then Py.dec 155 (-2)
  else if bool_decide (label = "Высокая") then Py.dec 1725 (-3)
  else if bool_decide (label = "Очень высокая") then Py.dec 190 (-2)
  else Py.dec 120 (-2).

Definition goalAdjustment (label : string) : Py.number :=
  if bool_decide (label = "Похудеть") then Py.dec (-20) (-2)
  else if bool_decide (label = "Поддерживать форму") then Py.Int 0
  else if bool_decide (label = "Набрать массу") then Py.dec 20 (-2)
  else Py.Int 0.

(** [lo <= f <= hi], which no NaN satisfies. *)
Definition within (lo hi : Z) (f : float) : bool :=
  match Float.compare_Z f lo, Float.compare_Z f hi with
  | Some (Eq | Gt), Some (Lt | Eq) => true
  | _, _ => false
  end.

(** [n] is the integer nearest to the float [x], the even one of the two
    when [x] lies halfway.  The float [(-1)^neg * m * 2^e] is the fraction
    [num / den] below. *)
Definition nearest_ties_to_even (x : float) (n : Z) : Prop :=
  match x with
  | S754_zero _ => n = 0
  | S754_finite neg m e =>
      let num := (if neg then Z.neg m else Z.pos m) * 2 ^ Z.max e 0 in
      let den := 2 ^ Z.max (- e) 0 in
      2 * Z.abs (n * den - num) <= den
      /\ (2 * Z.abs (n * den - num) = den -> Z.even n = true)
  | _ => False
  end.

(** ** The vocabulary of the further properties *)

(** The keys of the two tables. *)
Definition activity_labels : list string :=
  ["Минимальная"; "Низкая"; "Средняя"; "Высокая"; "Очень высокая"].

Definition goal_labels : list string :=
  ["Похудеть"; "Поддерживать форму"; "Набрать массу"].

(** The three targets as [process_goal] computes them from the data. *)
Definition targets_of (d : gmap string value) : result (Py.number * Z * macros) :=
  bmr ← (g ← item d "gender" ≫= as_str;
         w ← item d "weight" ≫= as_num;
         h ← item d "height" ≫= as_num;
         a ← item d "age" ≫= as_num;
         calculate_bmr g w h a);
  daily_calories ← (a ← item d "activity" ≫= as_str;
                     g ← item d "goal" ≫= as_str;
                     calculate_daily_calories bmr a g);
  m ← calculate_macros (Py.Int daily_calories);
  Ok (bmr, daily_calories, m).

(** The stored targets are those of the stored answers. *)
Definition targets_in_sync (d : gmap string value) : Prop :=
  exists bmr daily_calories m,
    targets_of d = Ok (bmr, daily_calories, m)
    /\ d !! "bmr" = Some (VNum bmr)
    /\ d !! "daily_calories" = Some (VNum (Py.Int daily_calories))
    /\ d !! "macros" = Some (VMacros m).

(** What may stand under a key of the data: a text for the gender, an
    integer from 10 to 120 for the age, a float within the range or a NaN
    for the weight and for the height, a label of the table for the activity
    and for the goal, a number, an integer and the three grams for the
    targets; and nothing under any other key. *)
Definition valid_answer (key : string) (v : value) : bool :=
  if bool_decide (key = "gender")
  then match v with VStr _ => true | _ => false end
  else if bool_decide (key = "age")
  then match v with
       | VNum (Py.Int n) => (10 <=? n)%Z && (n <=? 120)%Z
       | _ => false
       end
  else if bool_decide (key = "weight")
  then match v with
       | VNum (Py.Flt f) => within 30 300 f || Float.is_nan f
       | _ => false
       end
  else if bool_decide (key = "height")
  then match v with
       | VNum (Py.Flt f) => within 100 250 f || Float.is_nan f
       | _ => false
       end
  else if bool_decide (key = "activity")
  then match v with VStr t => bool_decide (t ∈ activity_labels) | _ => false end
  else if bool_decide (key = "goal")
  then match v with VStr t => bool_decide (t ∈ goal_labels) | _ => false end
  else if bool_decide (key = "bmr")
  then match v with VNum _ => true | _ => false end
  else if bool_decide (key = "daily_calories")
  then match v with VNum (Py.Int _) => true | _ => false end
  else if bool_decide (key = "macros")
  then match v with VMacros _ => true | _ => false end
  else false.

(** The state that follows a state of the questionnaire. *)
Definition successor (st : UserStates.t) : UserStates.t :=
  match st with
  | UserStates.gender => UserStates.age
  | UserStates.age => UserStates.weight
  | UserStates.weight => UserStates.height
  | UserStates.height => UserStates.activity
  | UserStates.activity => UserStates.goal
  | UserStates.goal | UserStates.menu => UserStates.menu
  end.

Definition stored_answers_valid (d : gmap string value) : Prop :=
  map_Forall (fun key v => valid_answer key v = true) d.

(** What one message can do to a chat: nothing; begin again at the gender
    with the data kept; clear everything; store a valid answer to the
    question of the state and go to the next; store a goal and stay, when
    the targets cannot be computed; store a goal and the targets computed
    from the data, and go to the menu. *)
Inductive transition : FSMContext -> FSMContext -> Prop :=
| transition_none s : transition s s
| transition_begin s : transition s (in_state UserStates.gender (data s))
| transition_clear s : transition s fresh
| transition_answer st key v d :
    st <> UserStates.goal -> st <> UserStates.menu ->
    fields !! position (Some st) = Some key ->
    valid_answer key v = true ->
    transition (in_state st d) (in_state (successor st) (<[key := v]> d))
| transition_goal_only t d e :
    t ∈ goal_labels ->
    targets_of (<["goal" := VStr t]> d) = Raise e ->
    transition (in_state UserStates.goal d)
      (in_state UserStates.goal (<["goal" := VStr t]> d))
| transition_goal t d bmr daily_calories m :
    t ∈ goal_labels ->
    targets_of (<["goal" := VStr t]> d) = Ok (bmr, daily_calories, m) ->
    transition (in_state UserStates.goal d)
      (in_state UserStates.menu
         (<["macros" := VMacros m]>
            (<["daily_calories" := VNum (Py.Int daily_calories)]>
               (<["bmr" := VNum bmr]> (<["goal" := VStr t]> d))))).

(** The energy of the grams that [calculate_macros] returns, at its own
    divisors: 4 kcal for a gram of protein or of carbohydrates, 9 kcal for a
    gram of fat. *)
Definition macros_kcal (m : macros) : Z :=
  (4 * protein m + 9 * fat m + 4 * carbs m)%Z.

(** The grams of a number of calories are returned, and their energy is
    within [tolerance] kcal of that number. *)
Definition macros_close (tolerance calories : Z) : bool :=
  match calculate_macros (Py.Int calories) with
  | Ok m => (Z.abs (macros_kcal m - calories) <=? tolerance)%Z
  | Raise _ => false
  end.

(** * Properties *)

(** ** Rounding *)

Lemma nearest_even_spec (m : positive) (e : Z) :
  let num := Z.pos m * 2 ^ Z.max e 0 in
  let den := 2 ^ Z.max (- e) 0 in
  let n := Float.nearest_even m e in
  2 * Z.abs (n * den - num) <= den
  /\ (2 * Z.abs (n * den - num) = den -> Z.even n = true).
Proof.
  unfold Float.nearest_even. destruct (Z.leb_spec 0 e) as [He | He].
  - rewrite (Z.max_l e 0), (Z.max_r (- e) 0) by lia. cbn zeta.
    rewrite Z.pow_0_r. split; intros; lia.
  - rewrite (Z.max_r e 0), (Z.max_l (- e) 0) by lia. cbn zeta. rewrite Z.pow_0_r.
    assert (Hd : 0 < 2 ^ (- e)) by (apply Z.pow_pos_nonneg; lia).
    generalize dependent (2 ^ (- e)). intros d Hd.
    assert (Hdm : Z.pos m = d * (Z.pos m / d) + Z.pos m mod d)
      by (apply Z.div_mod; lia).
    pose proof (Z.mod_pos_bound (Z.pos m) d Hd) as Hr.
    generalize dependent (Z.pos m mod d). generalize dependent (Z.pos m / d).
    intros q r Hdm Hr.
    destruct (Z.compare_spec (2 * r) d) as [Heq | Hlt | Hgt].
    + destruct (Z.even q) eqn:Hq.
      * split; [| trivial]. rewrite Hdm. lia.
      * split; [rewrite Hdm; lia |]. intros _.
        rewrite Z.even_add, Hq. reflexivity.
    + split; [rewrite Hdm; lia |]. rewrite Hdm. lia.
    + split; [rewrite Hdm; lia |]. rewrite Hdm. lia.
Qed.

(** [round] of a float returns the nearest integer, the even one on a
    tie, and raises exactly on a NaN and on the infinities. *)
Lemma round_nearest_ties_to_even (x : float) :
  match Py.round (Py.Flt x) with
  | Ok n => nearest_ties_to_even x n
  | Raise _ => x = S754_nan \/ exists neg, x = S754_infinity neg
  end.
Proof.
  destruct x as [neg | neg | | neg m e]; cbn [Py.round nearest_ties_to_even]; eauto.
  pose proof (nearest_even_spec m e) as [Hle Htie]. cbn zeta in Hle, Htie.
  destruct neg; cbn [id].
  - rewrite Z.even_opp.
    replace (- Float.nearest_even m e * 2 ^ Z.max (- e) 0 - Z.neg m * 2 ^ Z.max e 0)
      with (- (Float.nearest_even m e * 2 ^ Z.max (- e) 0 - Z.pos m * 2 ^ Z.max e 0))
      by lia.
    rewrite Z.abs_opp. auto.
  - auto.
Qed.

(** ** The calculation functions *)

Section Calculation.

Implicit Types (gender activity goal : string) (weight height age bmr calories : Py.number).

Lemma activity_coefficient activity :
  get ACTIVITY_COEFFICIENTS activity (Py.dec 12 (-1)) = activityMultiplier activity.
Proof.
  unfold get, ACTIVITY_COEFFICIENTS, activityMultiplier; cbn [list_to_map foldr fst snd].
  repeat (rewrite lookup_insert; case_decide;
          [ subst; vm_compute; reflexivity
          | rewrite bool_decide_eq_false_2 by congruence ]).
  rewrite lookup_empty. vm_compute. reflexivity.
Qed.

Lemma goal_coefficient goal :
  get GOAL_COEFFICIENTS goal (Py.Int 0) = goalAdjustment goal.
Proof.
  unfold get, GOAL_COEFFICIENTS, goalAdjustment; cbn [list_to_map foldr fst snd].
  repeat (rewrite lookup_insert; case_decide;
          [ subst; vm_compute; reflexivity
          | rewrite bool_decide_eq_false_2 by congruence ]).
  rewrite lookup_empty. reflexivity.
Qed.

(** C2, as amended.  For every weight, height and age [calculate_bmr]
    returns [10*weight + 6.25*height - 5*age + 5] when the gender is the
    label "Мужской" and [10*weight + 6.25*height - 5*age - 161] for every
    other gender, which is therefore treated as "Женский"; in particular
    it returns 1648.75 for a man of 70 kg, 175 cm and 30 years and 1345.25
    for a woman of 60 kg, 165 cm and 25 years. *)
Theorem calculate_bmr_formula gender weight height age :
  calculate_bmr gender weight height age
    = (if bool_decide (gender = "Мужской")
       then 10 * Ok weight + Ok (Py.dec 625 (-2)) * Ok height - 5 * Ok age + 5
       else 10 * Ok weight + Ok (Py.dec 625 (-2)) * Ok height - 5 * Ok age - 161)%py
  /\ calculate_bmr gender weight height age
      = calculate_bmr
          (if bool_decide (gender = "Мужской") then "Мужской" else "Женский")
          weight height age
  /\ calculate_bmr "Мужской" (Py.dec 70 0) (Py.dec 175 0) (Py.Int 30)
      = Ok (Py.dec 164875 (-2))
  /\ calculate_bmr "Женский" (Py.dec 60 0) (Py.dec 165 0) (Py.Int 25)
      = Ok (Py.dec 134525 (-2)).
Proof.
  split; [reflexivity |]. split.
  - unfold calculate_bmr. case_bool_decide as Hg.
    + rewrite bool_decide_eq_true_2; reflexivity.
    + rewrite bool_decide_eq_false_2; [reflexivity | discriminate].
  - split; vm_compute; reflexivity.
Qed.

(** C2 as the specification states it fails on its own examples: the
    formula gives 1648.75 and 1345.25, not 1573.75 and 602.25, whether
    the weight and the height are passed as floats or as ints. *)
Lemma calculate_bmr_examples_differ :
  calculate_bmr "Мужской" (Py.dec 70 0) (Py.dec 175 0) (Py.Int 30)
    <> Ok (Py.dec 157375 (-2))
  /\ calculate_bmr "Мужской" (Py.Int 70) (Py.Int 175) (Py.Int 30)
      <> Ok (Py.dec 157375 (-2))
  /\ calculate_bmr "Женский" (Py.dec 60 0) (Py.dec 165 0) (Py.Int 25)
      <> Ok (Py.dec 60225 (-2))
  /\ calculate_bmr "Женский" (Py.Int 60) (Py.Int 165) (Py.Int 25)
      <> Ok (Py.dec 60225 (-2)).
Proof. repeat split; vm_compute; discriminate. Qed.

(** C3.  For every bmr and every activity and goal text,
    [calculate_daily_calories] returns
    [round(bmr * activityMultiplier * (1 + goalAdjustment))], where a text
    that is none of the five activity labels has the multiplier 1.20 and
    one that is none of the three goal labels the adjustment 0; the one
    rounding is to the nearest integer with ties to even, and fails only
    when the product is a NaN or an infinity; and the function returns 2439
    for 1573.75, "Средняя" and "Поддерживать форму". *)
Theorem calculate_daily_calories_formula bmr activity goal :
  calculate_daily_calories bmr activity goal
    = ((Ok bmr * Ok (activityMultiplier activity)
        * (1 + Ok (goalAdjustment goal)))%py ≫= Py.round)
  /\ (forall f : float,
        match Py.round (Py.Flt f) with
        | Ok n => nearest_ties_to_even f n
        | Raise _ => f = S754_nan \/ exists neg, f = S754_infinity neg
        end)
  /\ (ACTIVITY_COEFFICIENTS !! activity = None ->
      activityMultiplier activity = Py.dec 120 (-2))
  /\ (GOAL_COEFFICIENTS !! goal = None -> goalAdjustment goal = Py.Int 0)
  /\ calculate_daily_calories (Py.dec 157375 (-2)) "Средняя" "Поддерживать форму"
      = Ok 2439.
Proof.
  split; [| split; [apply round_nearest_ties_to_even |]].
  2: { split; [| split]; [intros Hnone | intros Hnone | vm_compute; reflexivity].
       - rewrite <- activity_coefficient. unfold get. rewrite Hnone.
         vm_compute. reflexivity.
       - rewrite <- goal_coefficient. unfold get. rewrite Hnone. reflexivity. }
  unfold calculate_daily_calories.
  rewrite activity_coefficient, goal_coefficient.
  unfold Py.mul at 3. unfold Py.lift2 at 1.
  destruct (Ok bmr * Ok (activityMultiplier activity))%py as [tdee | err];
    reflexivity.
Qed.

Lemma calculate_daily_calories_formula_witness :
  activityMultiplier "Сидячая" = Py.dec 120 (-2)
  /\ goalAdjustment "Отдохнуть" = Py.Int 0.
Proof.
  destruct (calculate_daily_calories_formula (Py.Int 0) "Сидячая" "Отдохнуть")
    as (_ & _ & Hactivity & Hgoal & _).
  split; [apply Hactivity | apply Hgoal]; vm_compute; reflexivity.
Defined.

(** C4.  For every number of calories [calculate_macros] returns
    [round(calories*0.30/4)] grams of protein, [round(calories*0.25/9)]
    of fat and [round(calories*0.45/4)] of carbohydrates, each rounded on
    its own; for 2439 calories these are 183, 68 and 274. *)
Theorem calculate_macros_formula calories :
  calculate_macros calories
    = (p ← (Ok calories * Ok (Py.dec 30 (-2)) / 4)%py ≫= Py.round;
       f ← (Ok calories * Ok (Py.dec 25 (-2)) / 9)%py ≫= Py.round;
       c ← (Ok calories * Ok (Py.dec 45 (-2)) / 4)%py ≫= Py.round;
       Ok {| protein := p; fat := f; carbs := c |})
  /\ calculate_macros (Py.Int 2439)
      = Ok {| protein := 183; fat := 68; carbs := 274 |}.
Proof.
  split; [| vm_compute; reflexivity].
  unfold calculate_macros, Py.div, Py.mul, Py.lift2, Py.arith.
  destruct calories as [z | f]; cbn [Py.to_float mbind result_bind].
  - destruct (Py.int_to_float z) as [fz | err]; reflexivity.
  - reflexivity.
Qed.

End Calculation.

(** ** The handlers, one message at a time *)

Section Handlers.

Implicit Types (response : completion) (d : gmap string value) (t : string).

Lemma dispatch_start response t s :
  dispatch response {| text := t; command := Some "start" |} s
    = (in_state UserStates.gender (data s), [Welcome]).
Proof. reflexivity. Qed.

Lemma dispatch_cancel response t s :
  dispatch response {| text := t; command := Some "cancel" |} s
    = (fresh, [Farewell]).
Proof. reflexivity. Qed.

Lemma dispatch_gender response t d :
  dispatch response (msg t) (in_state UserStates.gender d)
    = (in_state UserStates.age (<["gender" := VStr t]> d), [AskAge t]).
Proof. reflexivity. Qed.

Lemma int_raises t e : Py.int t = Raise e -> e = ValueError.
Proof.
  unfold Py.int. destruct (Py.ungroup _ _) as [l |]; [| congruence].
  destruct (Py.sign l) as [neg ds]. destruct (Py.all_digits ds); congruence.
Qed.

Lemma float_raises t e : Py.float t = Raise e -> e = ValueError.
Proof.
  unfold Py.float. destruct (Py.ungroup _ _) as [l |]; [| congruence].
  destruct (Py.sign l) as [neg body].
  destruct (Py.decimal neg body); [congruence |].
  destruct (Py.inf_or_nan neg body); congruence.
Qed.

(** The range test of the source, [x < lo or x > hi], lets through the
    floats within the range and, with them, the NaN. *)
Lemma range_test lo hi (f : float) :
  negb (Py.lt (Py.Flt f) (Py.Int lo) || Py.gt (Py.Flt f) (Py.Int hi))
    = within lo hi f || Float.is_nan f.
Proof.
  unfold Py.lt, Py.gt, Py.compare, within.
  destruct f as [neg | neg | | neg m e]; cbn [Float.compare_Z Float.is_nan];
    try reflexivity.
  - destruct (0 ?= lo)%Z, (0 ?= hi)%Z; reflexivity.
  - destruct neg; reflexivity.
  - destruct (if (0 <=? e)%Z then _ else _), (if (0 <=? e)%Z then _ else _);
      reflexivity.
Qed.

Lemma dispatch_age response t d :
  dispatch response (msg t) (in_state UserStates.age d)
    = match Py.int t with
      | Ok n =>
          if (10 <=? n)%Z && (n <=? 120)%Z
          then (in_state UserStates.weight (<["age" := VNum (Py.Int n)]> d),
                [AskWeight n])
          else (in_state UserStates.age d, [BadAge])
      | Raise _ => (in_state UserStates.age d, [EnterNumber])
      end.
Proof.
  unfold dispatch, find_handler, msg, in_state. simpl.
  unfold process_age, try_except, mbind, handler_bind, lift. simpl.
  destruct (Py.int t) as [n | e] eqn:Hint.
  - replace ((n <? 10)%Z || (n >? 120)%Z) with (negb ((10 <=? n)%Z && (n <=? 120)%Z))
      by (rewrite Z.gtb_ltb, negb_andb, !Z.leb_antisym, !negb_involutive; reflexivity).
    destruct ((10 <=? n)%Z && (n <=? 120)%Z); reflexivity.
  - apply int_raises in Hint as ->. reflexivity.
Qed.

Lemma dispatch_weight response t d :
  dispatch response (msg t) (in_state UserStates.weight d)
    = match Py.float (Py.replace "," "." t) with
      | Ok f =>
          if within 30 300 f || Float.is_nan f
          then (in_state UserStates.height (<["weight" := VNum (Py.Flt f)]> d),
                [AskHeight f])
          else (in_state UserStates.weight d, [BadWeight])
      | Raise _ => (in_state UserStates.weight d, [EnterNumber])
      end.
Proof.
  unfold dispatch, find_handler, msg, in_state. simpl.
  unfold process_weight, try_except, mbind, handler_bind, lift. simpl.
  destruct (Py.float _) as [f | e] eqn:Hfloat.
  - rewrite <- range_test.
    destruct (Py.lt _ _ || Py.gt _ _); reflexivity.
  - apply float_raises in Hfloat as ->. reflexivity.
Qed.

Lemma dispatch_height response t d :
  dispatch response (msg t) (in_state UserStates.height d)
    = match Py.float (Py.replace "," "." t) with
      | Ok f =>
          if within 100 250 f || Float.is_nan f
          then (in_state UserStates.activity (<["height" := VNum (Py.Flt f)]> d),
                [AskActivity f])
          else (in_state UserStates.height d, [BadHeight])
      | Raise _ => (in_state UserStates.height d, [EnterNumber])
      end.
Proof.
  unfold dispatch, find_handler, msg, in_state. simpl.
  unfold process_height, try_except, mbind, handler_bind, lift. simpl.
  destruct (Py.float _) as [f | e] eqn:Hfloat.
  - rewrite <- range_test.
    destruct (Py.lt _ _ || Py.gt _ _); reflexivity.
  - apply float_raises in Hfloat as ->. reflexivity.
Qed.

Lemma dispatch_activity response t d :
  dispatch response (msg t) (in_state UserStates.activity d)
    = if bool_decide (ACTIVITY_COEFFICIENTS !! t = None)
      then (in_state UserStates.activity d, [ChooseOption])
      else (in_state UserStates.goal (<["activity" := VStr t]> d), [AskGoal t]).
Proof.
  unfold dispatch, find_handler, msg, in_state. simpl.
  unfold process_activity. simpl. case_bool_decide; reflexivity.
Qed.

(** A goal is rejected, or stored; the targets are then computed and, if
    no computation raises, stored as well before the state becomes the
    menu. *)
Lemma dispatch_goal_shape response t d :
  let r := dispatch response (msg t) (in_state UserStates.goal d) in
  r = (in_state UserStates.goal d, [ChooseOption])
  \/ r = (in_state UserStates.goal (<["goal" := VStr t]> d), [])
  \/ exists bmr cal m st out,
       r = ({| state := Some st;
               data := <["macros" := VMacros m]>
                         (<["daily_calories" := VNum (Py.Int cal)]>
                            (<["bmr" := VNum bmr]> (<["goal" := VStr t]> d))) |},
            out)
       /\ (st = UserStates.goal \/ st = UserStates.menu).
Proof.
  unfold dispatch, find_handler, msg, in_state. simpl.
  unfold process_goal. simpl. case_bool_decide; [left; reflexivity | right].
  unfold mbind, handler_bind, lift, update_data, get_data, message_answer,
    set_state.
  simpl.
  repeat match goal with
         | |- context [match ?x with Ok _ => _ | Raise _ => _ end] => destruct x
         end;
    simpl; first [left; reflexivity | right; eauto 12].
Qed.

Lemma dispatch_show_my_data response d :
  exists out,
    dispatch response (msg "📋 Мои данные") (in_state UserStates.menu d)
      = (in_state UserStates.menu d, out).
Proof.
  unfold dispatch, find_handler, msg, in_state. simpl.
  unfold show_my_data, mbind, handler_bind, lift, get_data, message_answer.
  simpl.
  destruct (result_bind _ _ _ _); eauto.
Qed.

Lemma dispatch_recalculate response d :
  dispatch response (msg "🔄 Пересчитать") (in_state UserStates.menu d)
    = (in_state UserStates.gender d, [StartOver]).
Proof. reflexivity. Qed.

Lemma generate_menu_keeps response message s :
  (generate_menu response message s).1.2 = s.
Proof. destruct response as [[| | str_e |] | menu_text]; reflexivity. Qed.

(** Whatever the message, in the menu the data stay as they are and the
    state stays the menu or goes back to the gender. *)
Lemma dispatch_menu response t d :
  let s' := (dispatch response (msg t) (in_state UserStates.menu d)).1 in
  data s' = d
  /\ (state s' = Some UserStates.menu \/ state s' = Some UserStates.gender).
Proof.
  unfold dispatch, find_handler, msg, in_state. simpl.
  repeat case_bool_decide; simpl; auto.
  - unfold show_my_data, mbind, handler_bind, lift, get_data, message_answer.
    simpl. destruct (result_bind _ _ _ _); simpl; auto.
  - pose proof (generate_menu_keeps response {| text := t; command := None |}
                  {| state := Some UserStates.menu; data := d |}) as Hkeep.
    destruct (generate_menu _ _ _) as [[r s'] out]. simpl in *. subst s'. auto.
Qed.

End Handlers.

(** ** The invariant of the questionnaire *)

Section Invariant.

Implicit Types (response : completion) (d : gmap string value) (t : string).

Lemma fields_NoDup : NoDup fields.
Proof. apply (bool_decide_unpack (NoDup fields)). vm_compute. exact I. Qed.

Lemma dispatch_text response message s :
  command message <> Some "start" ->
  command message <> Some "cancel" ->
  dispatch response message s = dispatch response (msg (text message)) s.
Proof.
  intros Hstart Hcancel. unfold dispatch, find_handler.
  rewrite !bool_decide_eq_false_2 by assumption.
  destruct (state s) as [[] |]; reflexivity.
Qed.

Lemma invariant_answer st st' d key v :
  fields !! position (Some st) = Some key ->
  (position (Some st') <= S (position (Some st)))%nat ->
  questionnaire_invariant (in_state st d) ->
  questionnaire_invariant (in_state st' (<[key := v]> d)).
Proof.
  intros Hkey Hpos [_ (n & Hn & Hprefix)]. split; [discriminate |].
  cbn [state in_state] in *. set (p := position (Some st)) in *.
  exists (Nat.max n (S p)). split; [lia |]. intros i key' Hi.
  unfold populated in *. cbn [data in_state] in *.
  rewrite lookup_insert_is_Some, (Hprefix i key' Hi).
  assert (key = key' <-> p = i) as Hsame.
  { split; intros Heq.
    - subst key'. eapply NoDup_lookup; eauto using fields_NoDup.
    - subst i. congruence. }
  split.
  - intros [Heq | [_ Hlt]]; [apply Hsame in Heq |]; lia.
  - intros Hlt. destruct (decide (p = i)) as [Heq | Hne].
    + left. apply Hsame, Heq.
    + right. split; [| lia]. intros Heq. apply Hne, Hsame, Heq.
Qed.

Lemma invariant_derived st d key v :
  key ∉ fields ->
  questionnaire_invariant (in_state st d) ->
  questionnaire_invariant (in_state st (<[key := v]> d)).
Proof.
  intros Hkey [_ (n & Hn & Hprefix)]. split; [discriminate |].
  exists n. split; [exact Hn |]. intros i key' Hi.
  rewrite <- (Hprefix i key' Hi). unfold populated. cbn [data in_state].
  rewrite lookup_insert_ne; [reflexivity |].
  intros ->. apply Hkey. eapply list_elem_of_lookup_2, Hi.
Qed.

Lemma invariant_back st' s :
  (position (Some st') <= position (state s))%nat ->
  questionnaire_invariant s ->
  questionnaire_invariant (in_state st' (data s)).
Proof.
  intros Hpos [_ (n & Hn & Hprefix)]. split; [discriminate |].
  exists n. cbn [state in_state]. split; [lia | exact Hprefix].
Qed.

Lemma invariant_fresh : questionnaire_invariant fresh.
Proof.
  split; [reflexivity |]. exists 0%nat. split; [reflexivity |].
  intros i key _. unfold populated. cbn [data fresh].
  rewrite lookup_empty. split; [intros [v Hv]; discriminate | lia].
Qed.

Lemma invariant_step response message s :
  questionnaire_invariant s ->
  questionnaire_invariant (dispatch response message s).1.
Proof.
  intros Hinv.
  destruct (decide (command message = Some "start")) as [Hstart | Hstart].
  { destruct message as [t c]. cbn [command] in Hstart. subst c.
    rewrite dispatch_start. apply invariant_back; [cbn; lia | exact Hinv]. }
  destruct (decide (command message = Some "cancel")) as [Hcancel | Hcancel].
  { destruct message as [t c]. cbn [command] in Hcancel. subst c.
    rewrite dispatch_cancel. apply invariant_fresh. }
  rewrite dispatch_text by assumption. generalize (text message). intros t.
  destruct s as [[st |] d]; [| exact Hinv].
  change {| state := Some st; data := d |} with (in_state st d) in *.
  destruct st.
  - rewrite dispatch_gender. apply (invariant_answer UserStates.gender); [reflexivity | cbn; lia | exact Hinv].
  - rewrite dispatch_age. destruct (Py.int t) as [n | e]; [| exact Hinv].
    destruct (_ && _); [| exact Hinv].
    apply (invariant_answer UserStates.age); [reflexivity | cbn; lia | exact Hinv].
  - rewrite dispatch_weight. destruct (Py.float _) as [f | e]; [| exact Hinv].
    destruct (_ || _); [| exact Hinv].
    apply (invariant_answer UserStates.weight); [reflexivity | cbn; lia | exact Hinv].
  - rewrite dispatch_height. destruct (Py.float _) as [f | e]; [| exact Hinv].
    destruct (_ || _); [| exact Hinv].
    apply (invariant_answer UserStates.height); [reflexivity | cbn; lia | exact Hinv].
  - rewrite dispatch_activity. case_bool_decide; [exact Hinv |].
    apply (invariant_answer UserStates.activity); [reflexivity | cbn; lia | exact Hinv].
  - destruct (dispatch_goal_shape response t d)
      as [-> | [-> | (bmr & cal & m & st & out & -> & Hst)]].
    + exact Hinv.
    + apply (invariant_answer UserStates.goal); [reflexivity | cbn; lia | exact Hinv].
    + cbn [fst]. change {| state := Some st; data := ?x |} with (in_state st x).
      assert (forall key, key ∈ derived -> key ∉ fields) as Hderived.
      { intros key Hin Hfield. revert Hin. unfold derived.
        rewrite !elem_of_cons, elem_of_nil. unfold fields in Hfield.
        rewrite !elem_of_cons, elem_of_nil in Hfield.
        intuition (subst; discriminate). }
      do 3 (apply invariant_derived;
            [apply Hderived; unfold derived; rewrite !elem_of_cons; tauto |]).
      apply (invariant_answer UserStates.goal); [reflexivity | | exact Hinv].
      destruct Hst as [-> | ->]; cbn; lia.
  - destruct (dispatch_menu response t d) as [Hdata Hstate].
    destruct (dispatch _ _ _).1 as [st' d']. cbn [data state] in *. subst d'.
    destruct Hstate as [-> | ->]; [exact Hinv |].
    apply (invariant_back UserStates.gender (in_state UserStates.menu d));
      [cbn; lia | exact Hinv].
Qed.

Lemma reachable_invariant s : reachable s -> questionnaire_invariant s.
Proof.
  induction 1 as [| response message s _ IH];
    [apply invariant_fresh | apply invariant_step, IH].
Qed.

Lemma reachable_run events s : reachable s -> reachable (run events s).
Proof.
  revert s. induction events as [| [response message] events IH]; intros s Hs.
  - exact Hs.
  - apply IH. cbn [fst snd]. apply reachable_step, Hs.
Qed.

End Invariant.

(** ** The questionnaire as the specification describes it *)

Section Questionnaire.

Implicit Types (response : completion) (d : gmap string value) (t : string).

(** C1, as amended.  In every reachable chat every field collected
    strictly before the current state is populated, and the populated
    fields are the first [n] of the order gender, age, weight, height,
    activity, goal for some [n]: no field is set while an earlier one is
    not.  In the state that asks for the age the gender is therefore set.
    (A field at or after the current state may hold an answer of an
    earlier pass.) *)
Theorem populated_fields_form_prefix s :
  reachable s ->
  (forall key, key ∈ collected_before (state s) -> populated s key)
  /\ (exists n : nat, forall (i : nat) (key : string),
        fields !! i = Some key -> populated s key <-> (i < n)%nat)
  /\ (state s = Some UserStates.age -> populated s "gender").
Proof.
  intros Hs. destruct (reachable_invariant s Hs) as [_ (n & Hn & Hprefix)].
  assert (forall key, key ∈ collected_before (state s) -> populated s key)
    as Hbefore.
  { intros key Hin. apply elem_of_take in Hin as (i & Hi & Hlt).
    apply (Hprefix i key Hi). lia. }
  split; [exact Hbefore |]. split; [exists n; exact Hprefix |].
  intros Hage. apply Hbefore. rewrite Hage. cbn. left.
Qed.

Lemma populated_fields_form_prefix_witness :
  populated (run first_pass fresh) "goal"
  /\ populated (run (take 2 first_pass) fresh) "gender".
Proof.
  destruct (populated_fields_form_prefix (run first_pass fresh))
    as (Hbefore & _ & _); [apply reachable_run, reachable_fresh |].
  destruct (populated_fields_form_prefix (run (take 2 first_pass) fresh))
    as (_ & _ & Hage); [apply reachable_run, reachable_fresh |].
  split.
  - apply Hbefore. vm_compute. do 5 right. left.
  - apply Hage. vm_compute. reflexivity.
Defined.

(** C1 as the specification states it fails: the restart of the menu
    sets the state back to the gender and keeps every answer, so the
    gender state is reached with all six fields populated, and the age
    state with the age already set. *)
Lemma restart_keeps_the_answers :
  reachable (run (first_pass ++ [restart]) fresh)
  /\ state (run (first_pass ++ [restart]) fresh) = Some UserStates.gender
  /\ populated (run (first_pass ++ [restart]) fresh) "gender"
  /\ ~ state_matches_fields (run (first_pass ++ [restart]) fresh)
  /\ state (run (first_pass ++ [restart; said "Женский"]) fresh)
      = Some UserStates.age
  /\ populated (run (first_pass ++ [restart; said "Женский"]) fresh) "age".
Proof.
  assert (populated (run (first_pass ++ [restart]) fresh) "gender") as Hgender
    by (eexists; vm_compute; reflexivity).
  split; [apply reachable_run, reachable_fresh |].
  split; [vm_compute; reflexivity |].
  split; [exact Hgender |].
  split; [| split; [vm_compute; reflexivity | eexists; vm_compute; reflexivity]].
  intros Hmatch. apply (Hmatch "gender") in Hgender; [| left].
  vm_compute in Hgender. inversion Hgender.
Qed.

(** C5: the code differs.  In the state that asks for the gender every
    text is stored as the gender and the chat goes on to the age: the
    handler has no test of the two labels, unlike those of the activity
    and of the goal.  So does the text "abc". *)
Theorem gender_is_not_validated response t d :
  dispatch response (msg t) (in_state UserStates.gender d)
    = (in_state UserStates.age (<["gender" := VStr t]> d), [AskAge t])
  /\ state (dispatch response (msg "abc") (in_state UserStates.gender ∅)).1
      = Some UserStates.age
  /\ data (dispatch response (msg "abc") (in_state UserStates.gender ∅)).1
        !! "gender" = Some (VStr "abc").
Proof.
  split; [apply dispatch_gender |].
  rewrite dispatch_gender. split; [reflexivity | apply lookup_insert_eq].
Qed.


Example age_boundaries response d :
  ((dispatch response (msg "10") (in_state UserStates.age d)).2 = [AskWeight 10]
   /\ (dispatch response (msg "120") (in_state UserStates.age d)).2
      = [AskWeight 120])
  /\ dispatch response (msg "9") (in_state UserStates.age d)
      = (in_state UserStates.age d, [BadAge])
  /\ dispatch response (msg "121") (in_state UserStates.age d)
      = (in_state UserStates.age d, [BadAge])
  /\ dispatch response (msg "ten") (in_state UserStates.age d)
      = (in_state UserStates.age d, [EnterNumber]).
Proof. rewrite !dispatch_age. repeat split; reflexivity. Qed.

(** C6: the code differs.  The text "nan" parses as a float that is in no
    range, yet the tests [x < 30 or x > 300] and [x < 100 or x > 250] are
    both false of it: it is stored as the weight, and as the height, and
    the chat goes on. *)
Theorem nan_passes_the_range_tests response d :
  dispatch response (msg "nan") (in_state UserStates.weight d)
    = (in_state UserStates.height (<["weight" := VNum (Py.Flt Float.nan)]> d),
       [AskHeight Float.nan])
  /\ dispatch response (msg "nan") (in_state UserStates.height d)
      = (in_state UserStates.activity
           (<["height" := VNum (Py.Flt Float.nan)]> d),
         [AskActivity Float.nan])
  /\ within 30 300 Float.nan = false
  /\ within 100 250 Float.nan = false.
Proof.
  rewrite dispatch_weight, dispatch_height. repeat split; reflexivity.
Qed.


Example weight_examples response d :
  (dispatch response (msg "70,5") (in_state UserStates.weight d)).2
    = [AskHeight (Float.of_decimal false 705 (-1))]
  /\ dispatch response (msg "29.9") (in_state UserStates.weight d)
      = (in_state UserStates.weight d, [BadWeight])
  /\ dispatch response (msg "inf") (in_state UserStates.weight d)
      = (in_state UserStates.weight d, [BadWeight])
  /\ dispatch response (msg "7,0,5") (in_state UserStates.weight d)
      = (in_state UserStates.weight d, [EnterNumber]).
Proof. rewrite !dispatch_weight. repeat split; reflexivity. Qed.

(** With a NaN for a weight no goal completes the questionnaire: the
    rounding of the calories raises and the chat stays at the goal. *)
Example nan_blocks_the_questionnaire :
  state (run [ (inr [], cmd "start"); said "Женский"; said "25"; said "nan";
               said "165"; said "Средняя"; said "Похудеть" ] fresh)
    = Some UserStates.goal.
Proof. vm_compute. reflexivity. Qed.

(** C7.  In every state the cancel command is handled before the state
    is looked at and leaves a chat with no state and no data at all; a
    start command then begins at the gender, with no data. *)
Theorem cancel_clears_the_session response response' t t' s :
  dispatch response {| text := t; command := Some "cancel" |} s
    = ({| state := None; data := ∅ |}, [Farewell])
  /\ (forall key,
        data (dispatch response {| text := t; command := Some "cancel" |} s).1
          !! key = None)
  /\ dispatch response' {| text := t'; command := Some "start" |}
       (dispatch response {| text := t; command := Some "cancel" |} s).1
      = (in_state UserStates.gender ∅, [Welcome]).
Proof.
  rewrite dispatch_cancel. split; [reflexivity |].
  split; [intros key; apply lookup_empty | reflexivity].
Qed.

(** C8.  The restart of the menu changes the state to the gender and
    nothing of the data; and the answer to a question writes only the
    keys of that question, so the earlier answers go one at a time. *)
Theorem recalculate_changes_only_the_state response d st t key :
  key ∉ written st ->
  dispatch response (msg "🔄 Пересчитать") (in_state UserStates.menu d)
    = (in_state UserStates.gender d, [StartOver])
  /\ data (dispatch response (msg t) (in_state st d)).1 !! key = d !! key.
Proof.
  intros Hkey. split; [reflexivity |].
  assert (forall k v, k ∈ written st -> <[k := v]> d !! key = d !! key) as Hne.
  { intros k v Hk. apply lookup_insert_ne. intros ->. exact (Hkey Hk). }
  destruct st.
  - rewrite dispatch_gender. apply Hne. left.
  - rewrite dispatch_age. destruct (Py.int t) as [n | e]; [| reflexivity].
    destruct (_ && _); [apply Hne; left | reflexivity].
  - rewrite dispatch_weight. destruct (Py.float _) as [f | e]; [| reflexivity].
    destruct (_ || _); [apply Hne; left | reflexivity].
  - rewrite dispatch_height. destruct (Py.float _) as [f | e]; [| reflexivity].
    destruct (_ || _); [apply Hne; left | reflexivity].
  - rewrite dispatch_activity. case_bool_decide; [reflexivity | apply Hne; left].
  - destruct (dispatch_goal_shape response t d)
      as [-> | [-> | (bmr & cal & m & st & out & -> & _)]];
      [reflexivity | apply Hne; left |].
    cbn [fst data]. unfold written in Hkey.
    rewrite !not_elem_of_cons in Hkey. destruct Hkey as (? & ? & ? & ? & _).
    rewrite !lookup_insert_ne by congruence. reflexivity.
  - destruct (dispatch_menu response t d) as [-> _]. reflexivity.
Qed.

Lemma recalculate_changes_only_the_state_witness :
  dispatch (inr []) (msg "🔄 Пересчитать")
      (in_state UserStates.menu (data (run first_pass fresh)))
    = (in_state UserStates.gender (data (run first_pass fresh)), [StartOver])
  /\ data (dispatch (inr []) (msg "Женский")
             (in_state UserStates.gender (data (run first_pass fresh)))).1
        !! "weight"
      = data (run first_pass fresh) !! "weight".
Proof.
  apply (recalculate_changes_only_the_state (inr [])
           (data (run first_pass fresh)) UserStates.gender "Женский" "weight").
  vm_compute. intros Hin. inversion Hin as [| ? ? ? Hnil]; inversion Hnil.
Defined.

(** C9.  In the menu the request for the data changes neither the data
    nor the state, however often it is made, and is answered each time as
    the first time, whatever the language model would have said. *)
Theorem show_my_data_is_read_only response response' d (n : nat) :
  Nat.iter n (fun s => (dispatch response (msg "📋 Мои данные") s).1)
      (in_state UserStates.menu d)
    = in_state UserStates.menu d
  /\ (dispatch response' (msg "📋 Мои данные")
        (Nat.iter n (fun s => (dispatch response (msg "📋 Мои данные") s).1)
           (in_state UserStates.menu d))).2
      = (dispatch response (msg "📋 Мои данные") (in_state UserStates.menu d)).2.
Proof.
  assert (Nat.iter n (fun s => (dispatch response (msg "📋 Мои данные") s).1)
            (in_state UserStates.menu d) = in_state UserStates.menu d) as Hiter.
  { induction n as [| n IH]; [reflexivity |]. rewrite Nat.iter_succ, IH.
    destruct (dispatch_show_my_data response d) as [out ->]. reflexivity. }
  split; [exact Hiter |]. rewrite Hiter. reflexivity.
Qed.

End Questionnaire.

(** ** The delivery of the menu *)

Section Delivery.

Context {A : Type}.
Implicit Types (l : list A) (n : nat).

Lemma slices_concat l n (first count : nat) :
  concat ((fun i => slice l i (i + n)) <$> ((fun k => k * n)%nat <$> seq first count))
    = take (count * n) (drop (first * n) l).
Proof.
  revert first. induction count as [| count IH]; intros first; [reflexivity |].
  cbn [seq fmap list_fmap concat]. rewrite IH. unfold slice.
  replace (first * n + n - first * n)%nat with n by lia.
  replace (S first * n)%nat with (first * n + n)%nat by lia.
  rewrite <- drop_drop, take_take_drop. reflexivity.
Qed.

(** The parts of a text, in order, make up the text, and none is longer
    than the step. *)
Lemma parts_concat l n :
  (0 < n)%nat ->
  concat ((fun i => slice l i (i + n)) <$> range (length l) n) = l.
Proof.
  intros Hn. unfold range. rewrite slices_concat, drop_0. apply take_ge.
  pose proof (Nat.div_mod (length l + n - 1) n ltac:(lia)) as Hdiv.
  pose proof (Nat.mod_upper_bound (length l + n - 1) n ltac:(lia)) as Hmod.
  nia.
Qed.

Lemma parts_length l n part :
  part ∈ (fun i => slice l i (i + n)) <$> range (length l) n ->
  (length part <= n)%nat.
Proof.
  intros (i & -> & _)%list_elem_of_fmap. unfold slice.
  rewrite length_take. lia.
Qed.

End Delivery.

(** [str(n)] has at most [d + 1] digits when [n < 10^(d+1)]. *)
Lemma digits_length (fuel : nat) :
  forall (d : nat) (n : N) (acc : chars),
    (n < 10 ^ N.of_nat (S d))%N ->
    (length (digits fuel n acc) <= S d + length acc)%nat.
Proof.
  induction fuel as [| fuel IH]; intros d n acc Hn; cbn [digits length]; [lia |].
  destruct (N.ltb_spec n 10) as [Hsmall | Hbig]; cbn [length]; [lia |].
  destruct d as [| d]; [change (10 ^ N.of_nat 1)%N with 10%N in Hn; lia |].
  specialize (IH d (n / 10)%N ((48 + n mod 10)%N :: acc)). cbn [length] in IH.
  etransitivity; [apply IH | lia].
  apply N.Div0.div_lt_upper_bound.
  replace (N.of_nat (S (S d))) with (N.succ (N.of_nat (S d))) in Hn by lia.
  rewrite N.pow_succ_r' in Hn. exact Hn.
Qed.

(** A text of more than 4096 characters goes out in parts of at most 4000
    characters that make up the text, each under a header with its number
    and the number of parts. *)
Lemma long_menu_in_parts (menu_text : chars) :
  (4096 < length menu_text)%nat ->
  exists parts : list chars,
    concat parts = menu_text
    /\ (forall part, part ∈ parts -> (length part <= 4000)%nat)
    /\ send_menu menu_text
       = imap (fun k part =>
                 u "📋 Ваше меню (часть " ++ str (k + 1) ++ u "/"
                   ++ str (length parts) ++ u "):" ++ [10; 10]%N ++ part)
              parts.
Proof.
  intros Hlong.
  exists ((fun i => slice menu_text i (i + 4000)) <$> range (length menu_text) 4000).
  split; [apply parts_concat; lia |].
  split; [intros part; apply parts_length |].
  unfold send_menu. apply Nat.ltb_lt in Hlong. rewrite Hlong. reflexivity.
Qed.

Lemma str_length (n : nat) :
  (N.of_nat n < 100000)%N -> (length (str n) <= 5)%nat.
Proof.
  intros Hn. unfold str.
  pose proof (digits_length n 4 (N.of_nat n) []) as Hlen. cbn [length] in Hlen.
  rewrite Nat.add_0_r in Hlen. apply Hlen. exact Hn.
Qed.

(** Each of these messages is within the limit of 4096 characters, as long
    as the parts are fewer than 100000. *)
Lemma long_menu_within_limit (menu_text message : chars) :
  (4096 < length menu_text)%nat ->
  (N.of_nat (length menu_text) <= 4000 * 99999)%N ->
  message ∈ send_menu menu_text ->
  (length message <= 4096)%nat.
Proof.
  intros Hlong Hbound Hin. unfold send_menu in Hin.
  apply Nat.ltb_lt in Hlong. rewrite Hlong in Hin.
  assert (length (u "📋 Ваше меню (часть ") = 19%nat) as Hhead by reflexivity.
  assert (length (u "/") = 1%nat) as Hslash by reflexivity.
  assert (length (u "):") = 2%nat) as Hclose by reflexivity.
  revert Hhead Hslash Hclose Hin.
  generalize (u "📋 Ваше меню (часть "), (u "/"), (u "):").
  intros head slash close Hhead Hslash Hclose Hin.
  apply list_elem_of_lookup in Hin as [k Hk].
  rewrite list_lookup_imap in Hk.
  destruct (_ !! k) as [part |] eqn:Hpart; [| discriminate].
  injection Hk as <-.
  assert (N.of_nat (length (range (length menu_text) 4000)) < 100000)%N as Hcount.
  { unfold range. rewrite length_fmap, length_seq.
    pose proof (Nat.Div0.mul_div_le (length menu_text + 4000 - 1) 4000). lia. }
  pose proof (lookup_lt_Some _ _ _ Hpart) as Hk. rewrite length_fmap in Hk.
  apply list_elem_of_lookup_2, parts_length in Hpart.
  rewrite !length_app, length_fmap.
  pose proof (str_length (k + 1) ltac:(lia)).
  pose proof (str_length (length (range (length menu_text) 4000)) Hcount).
  cbn [length]. lia.
Qed.

(** A text of at most 4096 characters goes out whole, under a header of 44
    characters. *)
Lemma short_menu_whole (menu_text : chars) :
  (length menu_text <= 4096)%nat ->
  send_menu menu_text
    = [u "📋 Ваше персонализированное меню на неделю:" ++ [10; 10]%N ++ menu_text]
  /\ length <$> send_menu menu_text = [(44 + length menu_text)%nat].
Proof.
  intros Hshort. unfold send_menu.
  replace (4096 <? length menu_text)%nat with false
    by (symmetry; apply Nat.ltb_ge, Hshort).
  split; [reflexivity |]. cbn [fmap list_fmap]. rewrite !length_app. reflexivity.
Qed.

(** C10: the code differs.  A text of exactly 4096 characters is not
    split, and the one message that carries it is 4140 characters long,
    above the limit of 4096. *)
Theorem short_menu_exceeds_the_limit :
  length (replicate 4096 97%N) = 4096%nat
  /\ length <$> send_menu (replicate 4096 97%N) = [4140%nat].
Proof.
  split; [apply length_replicate |].
  destruct (short_menu_whole (replicate 4096 97%N)) as [_ ->].
  - rewrite length_replicate. reflexivity.
  - rewrite length_replicate. reflexivity.
Qed.

(** ** The answer to the goal *)

Section Goal.

Implicit Types (response : completion) (d : gmap string value) (t : string).

Lemma activity_known t :
  ACTIVITY_COEFFICIENTS !! t <> None <-> t ∈ activity_labels.
Proof.
  unfold ACTIVITY_COEFFICIENTS. rewrite <- not_elem_of_list_to_map.
  cbn [fmap list_fmap fst]. unfold activity_labels.
  split; [intros Hin | intros Hin Hnot; exact (Hnot Hin)].
  destruct (decide (t ∈ ["Минимальная"; "Низкая"; "Средняя"; "Высокая";
                         "Очень высокая"])); [assumption | contradiction].
Qed.

Lemma goal_known t : GOAL_COEFFICIENTS !! t <> None <-> t ∈ goal_labels.
Proof.
  unfold GOAL_COEFFICIENTS. rewrite <- not_elem_of_list_to_map.
  cbn [fmap list_fmap fst]. unfold goal_labels.
  split; [intros Hin | intros Hin Hnot; exact (Hnot Hin)].
  destruct (decide (t ∈ ["Похудеть"; "Поддерживать форму"; "Набрать массу"]));
    [assumption | contradiction].
Qed.

Lemma nan_left iop fop (n r : Py.number) :
  (forall y, fop S754_nan y = S754_nan) ->
  Py.arith iop fop (Py.Flt S754_nan) n = Ok r -> r = Py.Flt S754_nan.
Proof.
  intros Hnan. unfold Py.arith. cbn. destruct (Py.to_float n) as [y | e]; cbn.
  - rewrite Hnan. congruence.
  - discriminate.
Qed.

Lemma nan_right iop fop (n r : Py.number) :
  (forall x, fop x S754_nan = S754_nan) ->
  Py.arith iop fop n (Py.Flt S754_nan) = Ok r -> r = Py.Flt S754_nan.
Proof.
  intros Hnan. unfold Py.arith. destruct n as [z | x]; cbn.
  - destruct (Py.int_to_float z) as [x | e]; cbn; [rewrite Hnan; congruence | discriminate].
  - rewrite Hnan. congruence.
Qed.

Lemma add_nan x : Float.add x S754_nan = S754_nan.
Proof. destruct x; reflexivity. Qed.

Lemma mul_nan x : Float.mul x S754_nan = S754_nan.
Proof. destruct x; reflexivity. Qed.

(** A NaN for the weight or for the height makes the rate a NaN. *)
Lemma bmr_of_nan gender (w h a bmr : Py.number) :
  w = Py.Flt S754_nan \/ h = Py.Flt S754_nan ->
  calculate_bmr gender w h a = Ok bmr -> bmr = Py.Flt S754_nan.
Proof.
  intros Hnan. unfold calculate_bmr.
  unfold Py.add, Py.sub, Py.mul, Py.lift2, int_literal. cbn [mbind result_bind].
  destruct (Py.arith Z.mul Float.mul (Py.Int 10) w) as [x1 |] eqn:H1;
    cbn [mbind result_bind]; [| destruct (bool_decide _); discriminate].
  destruct (Py.arith Z.mul Float.mul (Py.dec 625 (-2)) h) as [x2 |] eqn:H2;
    cbn [mbind result_bind]; [| destruct (bool_decide _); discriminate].
  destruct (Py.arith Z.add Float.add x1 x2) as [x3 |] eqn:H3;
    cbn [mbind result_bind]; [| destruct (bool_decide _); discriminate].
  destruct (Py.arith Z.mul Float.mul (Py.Int 5) a) as [x4 |] eqn:H4;
    cbn [mbind result_bind]; [| destruct (bool_decide _); discriminate].
  destruct (Py.arith Z.sub Float.sub x3 x4) as [x5 |] eqn:H5;
    cbn [mbind result_bind]; [| destruct (bool_decide _); discriminate].
  assert (x5 = Py.Flt S754_nan) as ->.
  { assert (x3 = Py.Flt S754_nan) as ->.
    { destruct Hnan as [-> | ->].
      - apply nan_right in H1 as ->; [| apply mul_nan].
        apply nan_left in H3; [assumption | reflexivity].
      - apply nan_right in H2 as ->; [| apply mul_nan].
        apply nan_right in H3; [assumption | apply add_nan]. }
    apply nan_left in H5; [assumption | reflexivity]. }
  destruct (bool_decide _); intros Hlast; apply nan_left in Hlast; auto.
Qed.

Lemma not_finite_mul (x : float) (n r : Py.number) :
  (forall q, Py.round (Py.Flt x) <> Ok q) ->
  Py.arith Z.mul Float.mul (Py.Flt x) n = Ok r ->
  exists y, r = Py.Flt y /\ forall q, Py.round (Py.Flt y) <> Ok q.
Proof.
  intros Hx. unfold Py.arith. cbn. destruct (Py.to_float n) as [y | e]; cbn; [| discriminate].
  intros [= <-]. eexists; split; [reflexivity |].
  destruct x as [sx | sx | | sx mx ex]; try (exfalso; eapply Hx; reflexivity);
    destruct y as [sy | sy | | sy my ey]; cbn; discriminate.
Qed.

(** The calories are an integer only when the rate rounds to one. *)
Lemma daily_calories_round bmr activity goal cal :
  calculate_daily_calories bmr activity goal = Ok cal ->
  exists rounded, Py.round bmr = Ok rounded.
Proof.
  destruct (Py.round bmr) as [rounded | e] eqn:Hround; [eauto |].
  intros Hcal. exfalso. destruct bmr as [z | x]; [discriminate |].
  assert (forall q, Py.round (Py.Flt x) <> Ok q) as Hx by (rewrite Hround; discriminate).
  unfold calculate_daily_calories in Hcal.
  unfold Py.add, Py.mul, Py.lift2, int_literal in Hcal. cbn [mbind result_bind] in Hcal.
  destruct (Py.arith Z.mul Float.mul (Py.Flt x) _) as [tdee |] eqn:H1; [| discriminate].
  apply not_finite_mul in H1 as (y & -> & Hy); [| assumption].
  cbn [mbind result_bind] in Hcal.
  destruct (Py.arith Z.add Float.add _ _) as [k |] eqn:H2; [| discriminate].
  cbn [mbind result_bind] in Hcal.
  destruct (Py.arith Z.mul Float.mul (Py.Flt y) k) as [adjusted |] eqn:H3; [| discriminate].
  apply not_finite_mul in H3 as (y' & -> & Hy'); [| assumption].
  cbn [mbind result_bind] in Hcal. exact (Hy' _ Hcal).
Qed.

Lemma dispatch_goal_cases response t d :
  let d' := <["goal" := VStr t]> d in
  let res := dispatch response (msg t) (in_state UserStates.goal d) in
  ((t ∉ goal_labels) /\ res = (in_state UserStates.goal d, [ChooseOption]))
  \/ (t ∈ goal_labels /\ (exists e, targets_of d' = Raise e)
      /\ res = (in_state UserStates.goal d', []))
  \/ (t ∈ goal_labels
      /\ exists bmr cal m rounded g a w h act gl,
          targets_of d' = Ok (bmr, cal, m) /\ Py.round bmr = Ok rounded
          /\ d' !! "gender" = Some g /\ d' !! "age" = Some a
          /\ d' !! "weight" = Some w /\ d' !! "height" = Some h
          /\ d' !! "activity" = Some act /\ d' !! "goal" = Some gl
          /\ res = (in_state UserStates.menu
                      (<["macros" := VMacros m]>
                         (<["daily_calories" := VNum (Py.Int cal)]>
                            (<["bmr" := VNum bmr]> d'))),
                    [Results g a w h act gl rounded cal m])).
Proof.
  cbn zeta. unfold dispatch, find_handler, msg, in_state. simpl.
  unfold process_goal. simpl.
  case_bool_decide as Hlabel.
  { left. split; [| reflexivity]. rewrite <- goal_known. tauto. }
  right. apply goal_known in Hlabel.
  unfold mbind, handler_bind, lift, update_data, get_data, message_answer,
    set_state.
  simpl. unfold targets_of, item.
  generalize (<["goal" := VStr t]> d). intros d'.
  destruct (d' !! "gender") as [[g | |] |]; cbn [mbind result_bind as_str as_num];
    try (left; repeat split; eauto; fail).
  destruct (d' !! "weight") as [[| w |] |]; cbn [mbind result_bind as_str as_num];
    try (left; repeat split; eauto; fail).
  destruct (d' !! "height") as [[| h |] |]; cbn [mbind result_bind as_str as_num];
    try (left; repeat split; eauto; fail).
  destruct (d' !! "age") as [[| a |] |]; cbn [mbind result_bind as_str as_num];
    try (left; repeat split; eauto; fail).
  destruct (calculate_bmr g w h a) as [bmr |] eqn:Hbmr;
    cbn [mbind result_bind as_str as_num];
    try (left; repeat split; eauto; fail).
  destruct (d' !! "activity") as [[act | |] |]; cbn [mbind result_bind as_str as_num];
    try (left; repeat split; eauto; fail).
  destruct (d' !! "goal") as [[gl | |] |]; cbn [mbind result_bind as_str as_num];
    try (left; repeat split; eauto; fail).
  destruct (calculate_daily_calories bmr act gl) as [cal |] eqn:Hcal;
    cbn [mbind result_bind as_str as_num];
    try (left; repeat split; eauto; fail).
  destruct (calculate_macros (Py.Int cal)) as [m |] eqn:Hm;
    cbn [mbind result_bind as_str as_num];
    try (left; repeat split; eauto; fail).
  destruct (daily_calories_round _ _ _ _ Hcal) as [rounded Hround].
  rewrite Hround. cbn [mbind result_bind]. right. split; [assumption |].
  exists bmr, cal, m, rounded, (VStr g), (VNum a), (VNum w), (VNum h), (VStr act),
    (VStr gl).
  repeat split; first [assumption | reflexivity].
Qed.

End Goal.

(** ** What a message can do *)

Section Transitions.

Implicit Types (response : completion) (d : gmap string value) (t : string).

(** Every message, whatever the state and the data, does one of the six
    things of [transition]: in particular the state stays, goes to the next
    state of the questionnaire, goes back to the gender or is cleared, an
    answer is stored only if it is valid for its question, and the targets
    are stored only together with the move to the menu. *)
Lemma dispatch_transition response message s :
  transition s (dispatch response message s).1.
Proof.
  destruct (decide (command message = Some "start")) as [Hstart | Hstart].
  { destruct message as [t c]. cbn [command] in Hstart. subst c.
    rewrite dispatch_start. apply transition_begin. }
  destruct (decide (command message = Some "cancel")) as [Hcancel | Hcancel].
  { destruct message as [t c]. cbn [command] in Hcancel. subst c.
    rewrite dispatch_cancel. apply transition_clear. }
  rewrite dispatch_text by assumption. generalize (text message). intros t.
  destruct s as [[st |] d]; [| apply transition_none].
  change {| state := Some st; data := d |} with (in_state st d) in *.
  destruct st.
  - rewrite dispatch_gender.
    apply (transition_answer UserStates.gender); done.
  - rewrite dispatch_age. destruct (Py.int t) as [n | e]; [| apply transition_none].
    destruct (_ && _) eqn:Hrange; [| apply transition_none].
    apply (transition_answer UserStates.age); done.
  - rewrite dispatch_weight. destruct (Py.float _) as [f | e]; [| apply transition_none].
    destruct (_ || _) eqn:Hrange; [| apply transition_none].
    apply (transition_answer UserStates.weight); done.
  - rewrite dispatch_height. destruct (Py.float _) as [f | e]; [| apply transition_none].
    destruct (_ || _) eqn:Hrange; [| apply transition_none].
    apply (transition_answer UserStates.height); done.
  - rewrite dispatch_activity. case_bool_decide as Hlabel; [apply transition_none |].
    apply (transition_answer UserStates.activity); try done.
    apply activity_known in Hlabel. cbn. apply bool_decide_eq_true_2, Hlabel.
  - destruct (dispatch_goal_cases response t d)
      as [[_ ->] | [(Hlabel & [e He] & ->) | (Hlabel & Hdone)]].
    + apply transition_none.
    + eapply transition_goal_only; eassumption.
    + destruct Hdone as (bmr & cal & m & ? & ? & ? & ? & ? & ? & ? & Htargets & _ & _
                         & _ & _ & _ & _ & _ & ->).
      apply transition_goal; assumption.
  - destruct (dispatch_menu response t d) as [Hdata Hstate].
    destruct (dispatch _ _ _).1 as [st' d']. cbn [data state] in *. subst d'.
    destruct Hstate as [-> | ->]; [apply transition_none |].
    apply (transition_begin (in_state UserStates.menu d)).
Qed.

End Transitions.

(** ** What holds of the stored data *)

Section Stored.

Implicit Types (response : completion) (d : gmap string value) (t : string).

Lemma targets_of_inv d bmr cal m :
  targets_of d = Ok (bmr, cal, m) ->
  exists g w h a act gl,
    d !! "gender" = Some (VStr g) /\ d !! "weight" = Some (VNum w)
    /\ d !! "height" = Some (VNum h) /\ d !! "age" = Some (VNum a)
    /\ d !! "activity" = Some (VStr act) /\ d !! "goal" = Some (VStr gl)
    /\ calculate_bmr g w h a = Ok bmr
    /\ calculate_daily_calories bmr act gl = Ok cal
    /\ calculate_macros (Py.Int cal) = Ok m.
Proof.
  unfold targets_of, item.
  destruct (d !! "gender") as [[g | |] |]; cbn [mbind result_bind as_str as_num];
    try discriminate.
  destruct (d !! "weight") as [[| w |] |]; cbn [mbind result_bind as_str as_num];
    try discriminate.
  destruct (d !! "height") as [[| h |] |]; cbn [mbind result_bind as_str as_num];
    try discriminate.
  destruct (d !! "age") as [[| a |] |]; cbn [mbind result_bind as_str as_num];
    try discriminate.
  destruct (calculate_bmr g w h a) as [bmr' |] eqn:Hbmr;
    cbn [mbind result_bind as_str as_num]; try discriminate.
  destruct (d !! "activity") as [[act | |] |]; cbn [mbind result_bind as_str as_num];
    try discriminate.
  destruct (d !! "goal") as [[gl | |] |]; cbn [mbind result_bind as_str as_num];
    try discriminate.
  destruct (calculate_daily_calories bmr' act gl) as [cal' |] eqn:Hcal;
    cbn [mbind result_bind as_str as_num]; try discriminate.
  destruct (calculate_macros (Py.Int cal')) as [m' |] eqn:Hm;
    cbn [mbind result_bind as_str as_num]; try discriminate.
  intros [= <- <- <-]. exists g, w, h, a, act, gl. repeat split; assumption.
Qed.

Lemma targets_of_derived d key v :
  key ∈ derived -> targets_of (<[key := v]> d) = targets_of d.
Proof.
  intros Hkey. unfold targets_of, item.
  unfold derived in Hkey. rewrite !elem_of_cons, elem_of_nil in Hkey.
  destruct Hkey as [-> | [-> | [-> | []]]];
    rewrite !lookup_insert_ne by discriminate; reflexivity.
Qed.

Lemma transition_valid s s' :
  transition s s' -> stored_answers_valid (data s) -> stored_answers_valid (data s').
Proof.
  unfold stored_answers_valid.
  destruct 1 as [s | s | s | st key v d Hgoal Hmenu Hkey Hvalid | t d e Hlabel _
                 | t d bmr cal m Hlabel _]; cbn [data in_state fresh]; intros Hd.
  - exact Hd.
  - exact Hd.
  - apply map_Forall_empty.
  - apply map_Forall_insert_2; assumption.
  - apply map_Forall_insert_2; [| assumption].
    cbn. apply bool_decide_eq_true_2, Hlabel.
  - repeat apply map_Forall_insert_2; try reflexivity; [| assumption].
    cbn. apply bool_decide_eq_true_2, Hlabel.
Qed.

Lemma reachable_valid s : reachable s -> stored_answers_valid (data s).
Proof.
  induction 1 as [| response message s _ IH]; [apply map_Forall_empty |].
  eapply transition_valid; [apply dispatch_transition | exact IH].
Qed.

Lemma transition_sync s s' :
  transition s s' ->
  (state s = Some UserStates.menu -> targets_in_sync (data s)) ->
  state s' = Some UserStates.menu -> targets_in_sync (data s').
Proof.
  destruct 1 as [s | s | s | st key v d Hgoal Hmenu Hkey Hvalid | t d e Hlabel _
                 | t d bmr cal m Hlabel Htargets]; cbn [data state in_state fresh];
    intros IH Hstate; try discriminate.
  - auto.
  - destruct st; cbn in Hstate; congruence.
  - exists bmr, cal, m.
    rewrite !targets_of_derived by (unfold derived; rewrite !elem_of_cons; tauto).
    split; [exact Htargets |].
    split; [rewrite !lookup_insert_ne by discriminate; apply lookup_insert_eq |].
    split; [rewrite lookup_insert_ne by discriminate; apply lookup_insert_eq |].
    apply lookup_insert_eq.
Qed.

Lemma reachable_sync s :
  reachable s -> state s = Some UserStates.menu -> targets_in_sync (data s).
Proof.
  induction 1 as [| response message s _ IH]; [discriminate |].
  eapply transition_sync; [apply dispatch_transition | exact IH].
Qed.



(** The activity and the goal of a reachable chat are keys of the two
    tables, so that [calculate_daily_calories], called on them, never falls
    back on its defaults. *)
Theorem stored_labels_have_coefficients s a g :
  reachable s ->
  data s !! "activity" = Some a -> data s !! "goal" = Some g ->
  exists activity goal,
    a = VStr activity /\ g = VStr goal
    /\ is_Some (ACTIVITY_COEFFICIENTS !! activity)
    /\ is_Some (GOAL_COEFFICIENTS !! goal).
Proof.
  intros Hs Ha Hg.
  pose proof (reachable_valid s Hs _ _ Ha) as Hva.
  pose proof (reachable_valid s Hs _ _ Hg) as Hvg.
  cbn in Hva, Hvg.
  destruct a as [activity | |]; try discriminate.
  destruct g as [goal | |]; try discriminate.
  apply bool_decide_eq_true_1 in Hva, Hvg.
  exists activity, goal. split; [reflexivity |]. split; [reflexivity |].
  rewrite <- !not_eq_None_Some. split; [apply activity_known | apply goal_known];
    assumption.
Qed.

Lemma stored_labels_have_coefficients_witness :
  exists activity goal,
    VStr "Средняя" = VStr activity /\ VStr "Поддерживать форму" = VStr goal
    /\ is_Some (ACTIVITY_COEFFICIENTS !! activity)
    /\ is_Some (GOAL_COEFFICIENTS !! goal).
Proof.
  apply (stored_labels_have_coefficients (run first_pass fresh)).
  - apply reachable_run, reachable_fresh.
  - vm_compute. reflexivity.
  - vm_compute. reflexivity.
Defined.

(** In every reachable chat that is in the menu the stored targets are
    those of the stored answers: the rate is [calculate_bmr] of the stored
    gender, weight, height and age, the calories are
    [calculate_daily_calories] of that rate and of the stored activity and
    goal, and the grams are [calculate_macros] of these calories. *)
Theorem menu_targets_in_sync s :
  reachable s -> state s = Some UserStates.menu ->
  exists g w h a act gl bmr cal m,
    data s !! "gender" = Some (VStr g) /\ data s !! "weight" = Some (VNum w)
    /\ data s !! "height" = Some (VNum h) /\ data s !! "age" = Some (VNum a)
    /\ data s !! "activity" = Some (VStr act) /\ data s !! "goal" = Some (VStr gl)
    /\ data s !! "bmr" = Some (VNum bmr)
    /\ data s !! "daily_calories" = Some (VNum (Py.Int cal))
    /\ data s !! "macros" = Some (VMacros m)
    /\ calculate_bmr g w h a = Ok bmr
    /\ calculate_daily_calories bmr act gl = Ok cal
    /\ calculate_macros (Py.Int cal) = Ok m.
Proof.
  intros Hs Hmenu.
  destruct (reachable_sync s Hs Hmenu) as (bmr & cal & m & Htargets & ? & ? & ?).
  destruct (targets_of_inv _ _ _ _ Htargets)
    as (g & w & h & a & act & gl & ? & ? & ? & ? & ? & ? & ? & ? & ?).
  exists g, w, h, a, act, gl, bmr, cal, m. repeat split; assumption.
Qed.

Lemma menu_targets_in_sync_witness :
  exists g w h a act gl bmr cal m,
    data (run first_pass fresh) !! "gender" = Some (VStr g)
    /\ data (run first_pass fresh) !! "weight" = Some (VNum w)
    /\ data (run first_pass fresh) !! "height" = Some (VNum h)
    /\ data (run first_pass fresh) !! "age" = Some (VNum a)
    /\ data (run first_pass fresh) !! "activity" = Some (VStr act)
    /\ data (run first_pass fresh) !! "goal" = Some (VStr gl)
    /\ data (run first_pass fresh) !! "bmr" = Some (VNum bmr)
    /\ data (run first_pass fresh) !! "daily_calories" = Some (VNum (Py.Int cal))
    /\ data (run first_pass fresh) !! "macros" = Some (VMacros m)
    /\ calculate_bmr g w h a = Ok bmr
    /\ calculate_daily_calories bmr act gl = Ok cal
    /\ calculate_macros (Py.Int cal) = Ok m.
Proof.
  apply (menu_targets_in_sync (run first_pass fresh)).
  - apply reachable_run, reachable_fresh.
  - vm_compute. reflexivity.
Defined.

(** A NaN never survives to the menu: in every reachable chat that is in
    the menu the weight is a float from 30 to 300 and the height a float
    from 100 to 250. *)
Theorem completed_profile_in_range s :
  reachable s -> state s = Some UserStates.menu ->
  exists fw fh : float,
    data s !! "weight" = Some (VNum (Py.Flt fw)) /\ within 30 300 fw = true
    /\ data s !! "height" = Some (VNum (Py.Flt fh)) /\ within 100 250 fh = true.
Proof.
  intros Hs Hmenu.
  destruct (reachable_sync s Hs Hmenu) as (bmr & cal & m & Htargets & _).
  destruct (targets_of_inv _ _ _ _ Htargets)
    as (g & w & h & a & act & gl & _ & Hw & Hh & _ & _ & _ & Hbmr & Hcal & _).
  pose proof (reachable_valid s Hs _ _ Hw) as Hvw.
  pose proof (reachable_valid s Hs _ _ Hh) as Hvh.
  destruct w as [| fw]; [discriminate |]. destruct h as [| fh]; [discriminate |].
  change (within 30 300 fw || Float.is_nan fw = true) in Hvw.
  change (within 100 250 fh || Float.is_nan fh = true) in Hvh.
  assert (bmr <> Py.Flt S754_nan) as Hnot.
  { intros ->. destruct (daily_calories_round _ _ _ _ Hcal) as [r Hr]. discriminate. }
  exists fw, fh. repeat split; try assumption.
  - destruct (within 30 300 fw); [reflexivity |]. cbn [orb] in Hvw.
    destruct fw; try discriminate. exfalso. apply Hnot.
    eapply bmr_of_nan; [| exact Hbmr]. left. reflexivity.
  - destruct (within 100 250 fh); [reflexivity |]. cbn [orb] in Hvh.
    destruct fh; try discriminate. exfalso. apply Hnot.
    eapply bmr_of_nan; [| exact Hbmr]. right. reflexivity.
Qed.

Lemma completed_profile_in_range_witness :
  exists fw fh : float,
    data (run first_pass fresh) !! "weight" = Some (VNum (Py.Flt fw))
    /\ within 30 300 fw = true
    /\ data (run first_pass fresh) !! "height" = Some (VNum (Py.Flt fh))
    /\ within 100 250 fh = true.
Proof.
  apply (completed_profile_in_range (run first_pass fresh)).
  - apply reachable_run, reachable_fresh.
  - vm_compute. reflexivity.
Defined.

(** Once a NaN is stored as the weight or as the height, no answer to
    the question of the goal reaches the menu: the chat stays at the goal. *)
Theorem nan_never_completes response t d :
  d !! "weight" = Some (VNum (Py.Flt S754_nan))
  \/ d !! "height" = Some (VNum (Py.Flt S754_nan)) ->
  state (dispatch response (msg t) (in_state UserStates.goal d)).1
    = Some UserStates.goal.
Proof.
  intros Hnan.
  destruct (dispatch_goal_cases response t d)
    as [[_ ->] | [(_ & _ & ->) | (_ & Hdone)]]; [reflexivity | reflexivity |].
  exfalso.
  destruct Hdone as (bmr & cal & m & ? & ? & ? & ? & ? & ? & ? & Htargets & _).
  destruct (targets_of_inv _ _ _ _ Htargets)
    as (g & w & h & a & act & gl & _ & Hw & Hh & _ & _ & _ & Hbmr & Hcal & _).
  rewrite lookup_insert_ne in Hw, Hh by discriminate.
  assert (bmr = Py.Flt S754_nan) as ->.
  { eapply bmr_of_nan; [| exact Hbmr].
    destruct Hnan as [Hnan | Hnan]; [left | right]; congruence. }
  destruct (daily_calories_round _ _ _ _ Hcal) as [r Hr]. discriminate.
Qed.

Lemma nan_never_completes_witness :
  state (dispatch (inr []) (msg "Похудеть")
           (in_state UserStates.goal
              (data (run [ (inr [], cmd "start"); said "Женский"; said "25";
                           said "nan"; said "165"; said "Средняя" ] fresh)))).1
    = Some UserStates.goal.
Proof.
  apply nan_never_completes. left. vm_compute. reflexivity.
Defined.

Lemma populated_insert d key v key' :
  is_Some (d !! key') -> is_Some (<[key := v]> d !! key').
Proof. intros Hsome. apply lookup_insert_is_Some'. right. exact Hsome. Qed.

Lemma fields_not_derived key : key ∈ fields -> key ∈ derived -> False.
Proof.
  unfold fields, derived. rewrite !elem_of_cons, !elem_of_nil.
  intros Hf Hd. intuition (subst; discriminate).
Qed.

(** The targets are stored only on a complete profile, and together: in
    every reachable chat that holds one of the three targets, all three
    are there and so are all six answers. *)
Theorem targets_need_the_profile s key :
  reachable s -> key ∈ derived -> populated s key ->
  (forall key', key' ∈ derived -> populated s key')
  /\ (forall field, field ∈ fields -> populated s field).
Proof.
  intros Hs. revert key.
  induction Hs as [| response message s Hs IH]; intros key Hkey Hpop.
  { destruct Hpop as [v Hv]. cbn in Hv. rewrite lookup_empty in Hv. discriminate. }
  pose proof (reachable_invariant _ (reachable_step response message s Hs)) as Hinv.
  pose proof (dispatch_transition response message s) as Hstep.
  revert Hpop Hinv. unfold populated in *.
  destruct Hstep as [s | s | s | st k v d Hgoal Hmenu Hk Hvalid | t d e Hlabel _
                     | t d bmr cal m Hlabel _]; cbn [data in_state fresh] in *;
    intros Hpop Hinv.
  - eauto.
  - eauto.
  - destruct Hpop as [v Hv]. rewrite lookup_empty in Hv. discriminate.
  - rewrite lookup_insert_ne in Hpop.
    + destruct (IH key Hkey Hpop) as [Hd Hf].
      split; intros; apply populated_insert; auto.
    + intros ->. eapply fields_not_derived; [| exact Hkey].
      eapply list_elem_of_lookup_2, Hk.
  - rewrite lookup_insert_ne in Hpop.
    + destruct (IH key Hkey Hpop) as [Hd Hf].
      split; intros; apply populated_insert; auto.
    + intros <-. eapply fields_not_derived; [| exact Hkey]. unfold fields.
      rewrite !elem_of_cons. tauto.
  - split.
    + intros key'. unfold derived. rewrite !elem_of_cons, elem_of_nil.
      intros [-> | [-> | [-> | []]]];
        rewrite ?lookup_insert_eq, ?(lookup_insert_ne _ "macros"),
          ?lookup_insert_eq, ?(lookup_insert_ne _ "daily_calories"),
          ?lookup_insert_eq by discriminate; eauto.
    + destruct Hinv as [_ (n & Hn & Hprefix)]. cbn [state in_state position] in Hn.
      intros field (i & Hi)%list_elem_of_lookup.
      apply (Hprefix i field Hi). apply lookup_lt_Some in Hi. cbn in Hi. lia.
Qed.

Lemma targets_need_the_profile_witness :
  (forall key', key' ∈ derived -> populated (run first_pass fresh) key')
  /\ (forall field, field ∈ fields -> populated (run first_pass fresh) field).
Proof.
  apply (targets_need_the_profile (run first_pass fresh) "bmr").
  - apply reachable_run, reachable_fresh.
  - left.
  - eexists. vm_compute. reflexivity.
Defined.

(** In every reachable chat that is in the menu the request for the data
    is answered by one message with the stored answers and targets
    themselves: no exception is raised and no placeholder for a missing value
    is shown. *)
Theorem show_my_data_shows_the_stored response s :
  reachable s -> state s = Some UserStates.menu ->
  exists g a w h act gl bmr rounded cal m,
    data s !! "gender" = Some g /\ data s !! "age" = Some a
    /\ data s !! "weight" = Some w /\ data s !! "height" = Some h
    /\ data s !! "activity" = Some act /\ data s !! "goal" = Some gl
    /\ data s !! "bmr" = Some (VNum bmr) /\ Py.round bmr = Ok rounded
    /\ data s !! "daily_calories" = Some cal
    /\ data s !! "macros" = Some (VMacros m)
    /\ dispatch response (msg "📋 Мои данные") s
        = (s, [MyData g a w h act gl rounded cal
                 (VNum (Py.Int (protein m))) (VNum (Py.Int (fat m)))
                 (VNum (Py.Int (carbs m)))]).
Proof.
  intros Hs Hmenu.
  destruct (reachable_sync s Hs Hmenu)
    as (bmr & cal & m & Htargets & Hbmr & Hcal & Hm).
  destruct (targets_of_inv _ _ _ _ Htargets)
    as (g & w & h & a & act & gl & Hg & Hw & Hh & Ha & Hact & Hgl & _ & Hdaily & _).
  destruct (daily_calories_round _ _ _ _ Hdaily) as [rounded Hround].
  exists (VStr g), (VNum a), (VNum w), (VNum h), (VStr act), (VStr gl), bmr, rounded,
    (VNum (Py.Int cal)), m.
  repeat (split; [assumption |]).
  destruct s as [st d]. cbn [state data] in *. subst st.
  unfold dispatch, find_handler, msg. simpl.
  unfold show_my_data, mbind, handler_bind, lift, get_data, message_answer. simpl.
  unfold get, macro_or_zero. rewrite Hg, Hw, Hh, Ha, Hact, Hgl, Hbmr, Hcal, Hm.
  cbn [default as_num result_bind id]. rewrite Hround. reflexivity.
Qed.

Lemma show_my_data_shows_the_stored_witness :
  exists g a w h act gl bmr rounded cal m,
    data (run first_pass fresh) !! "gender" = Some g
    /\ data (run first_pass fresh) !! "age" = Some a
    /\ data (run first_pass fresh) !! "weight" = Some w
    /\ data (run first_pass fresh) !! "height" = Some h
    /\ data (run first_pass fresh) !! "activity" = Some act
    /\ data (run first_pass fresh) !! "goal" = Some gl
    /\ data (run first_pass fresh) !! "bmr" = Some (VNum bmr)
    /\ Py.round bmr = Ok rounded
    /\ data (run first_pass fresh) !! "daily_calories" = Some cal
    /\ data (run first_pass fresh) !! "macros" = Some (VMacros m)
    /\ dispatch (inr []) (msg "📋 Мои данные") (run first_pass fresh)
        = (run first_pass fresh,
           [MyData g a w h act gl rounded cal
              (VNum (Py.Int (protein m))) (VNum (Py.Int (fat m)))
              (VNum (Py.Int (carbs m)))]).
Proof.
  apply (show_my_data_shows_the_stored (inr []) (run first_pass fresh)).
  - apply reachable_run, reachable_fresh.
  - vm_compute. reflexivity.
Defined.

(** The states are passed in the order of the questionnaire: after any
    message the state is the one before, or the next one, or the gender
    again, or none. *)
Theorem states_follow_the_order response message s :
  state (dispatch response message s).1 = state s
  \/ state (dispatch response message s).1 = successor <$> state s
  \/ state (dispatch response message s).1 = Some UserStates.gender
  \/ state (dispatch response message s).1 = None.
Proof.
  destruct (dispatch_transition response message s); cbn; auto.
Qed.



(** In the menu only the restart button changes anything: any other text
    leaves the state and the data as they are; a text that is none of the
    four buttons is dropped without an answer, and a request for a menu is
    first answered by the notice that it is being generated, however the
    call to the language model ends. *)
Theorem menu_is_stable response t d :
  t <> "🔄 Пересчитать" ->
  (dispatch response (msg t) (in_state UserStates.menu d)).1
    = in_state UserStates.menu d
  /\ (t ∉ ["📋 Мои данные"; "🍽 Сгенерировать меню"; "🆕 Новое меню"] ->
      (dispatch response (msg t) (in_state UserStates.menu d)).2 = [])
  /\ (t ∈ ["🍽 Сгенерировать меню"; "🆕 Новое меню"] ->
      head (dispatch response (msg t) (in_state UserStates.menu d)).2
        = Some Generating).
Proof.
  intros Hrestart. unfold dispatch, find_handler, msg, in_state. simpl.
  case_bool_decide as Hshow.
  { subst t. split; [| split].
    - destruct (dispatch_show_my_data response d) as [out Hout].
      unfold dispatch, find_handler, msg, in_state in Hout. simpl in Hout.
      destruct (show_my_data _ _) as [[r s'] out']. simpl in *. congruence.
    - intros Hnot. exfalso. apply Hnot. left.
    - rewrite !elem_of_cons, elem_of_nil. intros [? | [? | []]]; discriminate. }
  rewrite bool_decide_eq_false_2 by assumption.
  case_bool_decide as Hgen.
  - pose proof (generate_menu_keeps response {| text := t; command := None |}
                  {| state := Some UserStates.menu; data := d |}) as Hkeep.
    split; [| split].
    + destruct (generate_menu _ _ _) as [[r s'] out]. simpl in *. congruence.
    + intros Hnot. exfalso. apply Hnot. right. exact Hgen.
    + intros _. destruct response as [[| | str_e |] | menu_text]; reflexivity.
  - split; [reflexivity |]. split; [reflexivity |]. intros Hin. contradiction.
Qed.

Lemma menu_is_stable_witness :
  (dispatch (inl RateLimitError) (msg "🆕 Новое меню")
     (in_state UserStates.menu ∅)).1 = in_state UserStates.menu ∅
  /\ ("🆕 Новое меню" ∉ ["📋 Мои данные"; "🍽 Сгенерировать меню"; "🆕 Новое меню"] ->
      (dispatch (inl RateLimitError) (msg "🆕 Новое меню")
         (in_state UserStates.menu ∅)).2 = [])
  /\ ("🆕 Новое меню" ∈ ["🍽 Сгенерировать меню"; "🆕 Новое меню"] ->
      head (dispatch (inl RateLimitError) (msg "🆕 Новое меню")
              (in_state UserStates.menu ∅)).2 = Some Generating).
Proof. apply menu_is_stable. discriminate. Defined.

End Stored.

(** ** The questions, one by one *)

Section Questions.

Implicit Types (response : completion) (d : gmap string value) (t : string).


(** The activity: one of the five labels is stored and the chat goes on to
    the goal; any other text leaves the chat as it was and is answered by
    the request to choose an option. *)
Theorem activity_is_validated response t d :
  (t ∈ activity_labels
   /\ dispatch response (msg t) (in_state UserStates.activity d)
      = (in_state UserStates.goal (<["activity" := VStr t]> d), [AskGoal t]))
  \/ ((t ∉ activity_labels)
      /\ dispatch response (msg t) (in_state UserStates.activity d)
         = (in_state UserStates.activity d, [ChooseOption])).
Proof.
  rewrite dispatch_activity. case_bool_decide as Hlabel.
  - right. split; [| reflexivity]. rewrite <- activity_known. tauto.
  - left. split; [| reflexivity]. apply activity_known, Hlabel.
Qed.

(** The goal: a text that is none of the three labels leaves the chat as
    it was and is answered by the request to choose an option; a label is
    stored, whether or not the targets can then be computed; and the menu
    is reached exactly when they can, with the targets stored and one
    message that shows the answers, the rounded rate, the calories and the
    grams. *)
Theorem goal_is_validated response t d :
  ((t ∉ goal_labels)
   /\ dispatch response (msg t) (in_state UserStates.goal d)
      = (in_state UserStates.goal d, [ChooseOption]))
  \/ (t ∈ goal_labels
      /\ (exists e, targets_of (<["goal" := VStr t]> d) = Raise e)
      /\ dispatch response (msg t) (in_state UserStates.goal d)
         = (in_state UserStates.goal (<["goal" := VStr t]> d), []))
  \/ (t ∈ goal_labels
      /\ exists bmr cal m rounded g a w h act,
          targets_of (<["goal" := VStr t]> d) = Ok (bmr, cal, m)
          /\ Py.round bmr = Ok rounded
          /\ d !! "gender" = Some g /\ d !! "age" = Some a
          /\ d !! "weight" = Some w /\ d !! "height" = Some h
          /\ d !! "activity" = Some act
          /\ dispatch response (msg t) (in_state UserStates.goal d)
             = (in_state UserStates.menu
                  (<["macros" := VMacros m]>
                     (<["daily_calories" := VNum (Py.Int cal)]>
                        (<["bmr" := VNum bmr]> (<["goal" := VStr t]> d)))),
                [Results g a w h act (VStr t) rounded cal m])).
Proof.
  destruct (dispatch_goal_cases response t d)
    as [Hno | [Hstuck | (Hlabel & Hdone)]]; [left; exact Hno | right; left; exact Hstuck |].
  right. right. split; [exact Hlabel |].
  destruct Hdone as (bmr & cal & m & rounded & g & a & w & h & act & gl & Htargets
                     & Hround & Hg & Ha & Hw & Hh & Hact & Hgl & Hres).
  rewrite lookup_insert_eq in Hgl. injection Hgl as <-.
  rewrite lookup_insert_ne in Hg, Ha, Hw, Hh, Hact by discriminate.
  exists bmr, cal, m, rounded, g, a, w, h, act. repeat split; assumption.
Qed.

End Questions.

(** ** The parts of a long menu *)

Section Parts.

Context {A : Type}.
Implicit Types (l : list A) (n : nat).

(** The parts of a text are as many as the step goes into its length,
    rounded up; none is empty, and every part but the last has exactly the
    step for its length. *)
Theorem parts_are_full l n (i : nat) part :
  (0 < n)%nat ->
  ((fun i => slice l i (i + n)) <$> range (length l) n) !! i = Some part ->
  length ((fun i => slice l i (i + n)) <$> range (length l) n)
    = Nat.div (length l + n - 1) n
  /\ (0 < length part)%nat
  /\ ((S i < Nat.div (length l + n - 1) n)%nat -> length part = n).
Proof.
  intros Hn Hpart. unfold range in *.
  rewrite !length_fmap, length_seq. split; [reflexivity |].
  rewrite !list_lookup_fmap in Hpart.
  destruct (seq 0 _ !! i) as [k |] eqn:Hk; [| discriminate].
  apply lookup_seq in Hk as [-> Hi]. cbn in Hpart. injection Hpart as <-.
  unfold slice. rewrite length_take, length_drop.
  pose proof (Nat.Div0.mul_div_le (length l + n - 1) n) as Hdiv.
  set (c := Nat.div (length l + n - 1) n) in *.
  replace (i * n + n - i * n)%nat with n by lia.
  assert (S i * n <= c * n)%nat as Hle by (apply Nat.mul_le_mono_r; lia).
  split; [nia |]. intros Hnext.
  assert (S (S i) * n <= c * n)%nat as Hle' by (apply Nat.mul_le_mono_r; lia).
  nia.
Qed.

End Parts.

Lemma parts_are_full_witness :
  length ((fun i => slice [1; 2; 3; 4; 5]%N i (i + 2)) <$> range 5 2) = 3%nat
  /\ (0 < length [1; 2]%N)%nat
  /\ ((1 < 3)%nat -> length [1; 2]%N = 2%nat).
Proof.
  apply (parts_are_full [1; 2; 3; 4; 5]%N 2 0 [1; 2]%N); [lia | reflexivity].
Defined.

Lemma long_menu_in_parts_witness :
  exists parts : list chars,
    concat parts = replicate 4097 97%N
    /\ (forall part, part ∈ parts -> (length part <= 4000)%nat)
    /\ send_menu (replicate 4097 97%N)
       = imap (fun k part =>
                 u "📋 Ваше меню (часть " ++ str (k + 1) ++ u "/"
                   ++ str (length parts) ++ u "):" ++ [10; 10]%N ++ part)
              parts.
Proof.
  apply (long_menu_in_parts (replicate 4097 97%N)).
  rewrite length_replicate. lia.
Defined.

Lemma long_menu_within_limit_witness :
  (length (u "📋 Ваше меню (часть " ++ str 1 ++ u "/" ++ str 2 ++ u "):"
           ++ [10; 10]%N ++ replicate 4000 97%N) <= 4096)%nat.
Proof.
  apply (long_menu_within_limit (replicate 4097 97%N)).
  - rewrite length_replicate. lia.
  - rewrite length_replicate. lia.
  - vm_compute. left.
Defined.

(** ** A chat with no state *)

Section Idle.

Implicit Types (response : completion) (message : Message) (s : FSMContext).

Lemma idle_data s : reachable s -> state s = None -> data s = ∅.
Proof.
  induction 1 as [| response message s _ IH]; [reflexivity |].
  destruct (dispatch_transition response message s); cbn;
    intros Hnone; try discriminate; auto.
Qed.

(** A reachable chat that has no state has no data either (it was never
    begun, or it was cancelled), and every message that is not one of the
    two commands is dropped there: nothing is answered and nothing is
    stored. *)
Theorem idle_chat_is_empty response message s :
  reachable s -> state s = None ->
  data s = ∅
  /\ (command message <> Some "start" -> command message <> Some "cancel" ->
      dispatch response message s = (s, [])).
Proof.
  intros Hs Hnone. split; [apply idle_data; assumption |].
  intros Hstart Hcancel. unfold dispatch, find_handler.
  rewrite !bool_decide_eq_false_2 by assumption. rewrite Hnone. reflexivity.
Qed.

Lemma idle_chat_is_empty_witness :
  data (run [(inr [], cmd "start"); said "Мужской"; (inr [], cmd "cancel")] fresh)
    = ∅
  /\ (command (msg "📋 Мои данные") <> Some "start" ->
      command (msg "📋 Мои данные") <> Some "cancel" ->
      dispatch (inr []) (msg "📋 Мои данные")
        (run [(inr [], cmd "start"); said "Мужской"; (inr [], cmd "cancel")] fresh)
      = (run [(inr [], cmd "start"); said "Мужской"; (inr [], cmd "cancel")] fresh,
         [])).
Proof.
  apply idle_chat_is_empty.
  - apply reachable_run, reachable_fresh.
  - vm_compute. reflexivity.
Defined.

End Idle.

(** ** The energy of the grams *)

Lemma macros_close_all : forallb (macros_close 7) (seqZ 0 5001) = true.
Proof. vm_compute. reflexivity. Qed.

(** For every whole number of calories from 0 to 5000 the grams are
    returned, no exception is raised, and the energy of the three amounts,
    at 4, 9 and 4 kcal a gram, is within 7 kcal of the calories: the three
    roundings never add up to more. *)
Theorem macros_account_for_the_calories (calories : Z) :
  (0 <= calories <= 5000)%Z ->
  exists m, calculate_macros (Py.Int calories) = Ok m
            /\ (Z.abs (macros_kcal m - calories) <= 7)%Z.
Proof.
  intros Hrange. pose proof macros_close_all as Hall.
  rewrite forallb_forall in Hall. specialize (Hall calories).
  unfold macros_close in Hall.
  assert (In calories (seqZ 0 5001)) as Hin
    by (apply list_elem_of_In, elem_of_seqZ; lia).
  destruct (calculate_macros (Py.Int calories)) as [m | e].
  - exists m. split; [reflexivity |]. apply Z.leb_le, Hall, Hin.
  - specialize (Hall Hin). discriminate.
Qed.

Lemma macros_account_for_the_calories_witness :
  exists m, calculate_macros (Py.Int 2439) = Ok m
            /\ (Z.abs (macros_kcal m - 2439) <= 7)%Z.
Proof. apply macros_account_for_the_calories. lia. Defined.

(** The bound is met: the grams of 2289 kcal carry 2296 kcal. *)
Example macros_gap_is_met :
  calculate_macros (Py.Int 2289) = Ok {| protein := 172; fat := 64; carbs := 258 |}
  /\ macros_kcal {| protein := 172; fat := 64; carbs := 258 |} = 2296%Z.
Proof. split; vm_compute; reflexivity. Qed.
